(* ===== verification/_CoqProject ===== *)
-Q . S2P
Spec2Rocq.v
Json.v
JsonParser.v
Auth.v
Normalizer.v
Backend.v
Session.v
StateMachine.v
Listener.v
LogFilter.v
Config.v
Settings.v
CacheConfig.v
