(* ===== verification/Spec2Rocq.v ===== *)
(** * A verification development of the xiaozhi gateway server

    The repository is a WebSocket gateway written in Python
    ([src/core/gateway_server.py], class [GatewayWebSocketServer]).  A
    device opens a WebSocket connection; the gateway authenticates it once
    from its [device-id] handshake header, then reads text frames, turns
    each frame into a chat-completion request, calls the OpenAI client in a
    worker thread and sends back one JSON frame: a [response] frame with the
    generated text or an [error] frame.  Two sibling modules are modelled
    too: the configuration-file check of [src/config/settings.py] and the
    cache presets of [src/core/utils/cache/config.py].

    ** How the code is split, and where each part is modelled

    - [Spec2Rocq] (this file): the prelude.  Its scope [gw_scope], the
      hint database [gateway], the tactics [gw_case] and [gw_done], and the
      string functions every component shares: Python's [in] on strings
      ([containsb]) and ASCII [str.lower] ([lower]).
    - [Json]: the Python values the code handles after [json.loads]
      ([pyval]: None, bool, int, float, str, list, dict), Python
      truthiness ([truthy]), [dict.get] ([pyget]), the value of [a or b]
      ([py_or]), [d[k] = v] ([dict_set]), and the interface [JsonLoads] of
      the decoder: a result is a value, a [JSONDecodeError], or another
      exception of the decoder.
    - [JsonParser]: an instance of [JsonLoads] that follows CPython's C
      scanner (standard-library behaviour, not code of the repository):
      [RecursionError] beyond 990 nested containers, [ValueError] on an
      integer of more than 4300 digits, NaN and Infinity, strict strings,
      a repeated key keeping its first position and its last value.  The
      witnesses run the whole gateway on concrete frames through it.
    - [Auth]: the authentication gate of [_handle_connection] (lines
      78-89): the handshake headers made into a dict, the [device-id]
      lookup and the two guards; with the spec's three-step algorithm as an
      abstract specification and the refinement theorem between them.
    - [Normalizer]: [_parse_payload] (lines 143-151) and the normalisation
      part of [_handle_message] (lines 99-116), generic over the decoder.
    - [Backend]: [_call_openai] (lines 133-141), with the OpenAI client as
      the interface [ChatClient] (its [create] may return a response or
      raise, and may answer the n-th call differently from the others).
    - [Session]: [_send_error], [_handle_message] and [_handle_connection]:
      a connection is run over the list of frames the peer sends (each
      frame saying whether the peer was still there when its reply was
      sent), and produces the trace of what the gateway does: frames read
      and sent, backend calls, close, handler abort.  The call counter [n]
      threads the client's state from one frame to the next.
    - [StateMachine]: the spec's session state machine (CONNECTING,
      AUTHENTICATING, OPEN, HANDLING, AWAITING, CLOSED) as a step relation
      [sm_step] with silent steps, its runs, two invariants by rule
      induction (a backend call only after the accepting step; frames read
      and replies sent balance), and the refinement theorem: every trace of
      [Session.handle_connection] is a complete run ending in CLOSED.
    - [Listener]: the [process_request] hook [_http_response] (lines
      72-75).  [LogFilter]: [SuppressInvalidHandshakeFilter] and
      [_setup_websockets_logger] over a registry of loggers (a [gmap]).
      [Config]: the constructor (lines 40-60) as a chain in the error
      monad of [gw_scope] (Python [int()], [set()], [in], and the
      [OpenAIError] of a [None] key), and the address [start] binds.
      [Settings]: [check_config_file] of [src/config/settings.py] with its
      module-global flag, as explicit state passing.  [CacheConfig]: the
      dataclass defaults and [CacheConfig.for_type] of
      [src/core/utils/cache/config.py].

    ** What the theorems show

    Authentication (Auth, Session, StateMachine): the backend is never
    called on a connection whose headers did not form a dict and whose
    device id the gate did not accept; a connection without a required
    device id, or with an unlisted one, gets exactly one error frame and is
    closed; the gate refines the spec's algorithm, except that an empty
    header counts as missing.  Protocol (Normalizer, Session): binary
    frames, non-object JSON and frames without content are answered by one
    error frame and the loop goes on; plain text becomes a single user
    turn; a [messages] value is passed on verbatim; the fallback chain
    picks the first truthy of text, content and prompt.  Replies
    (Session): on delivered frames the session sends exactly one reply per
    frame, in frame order, and a reply that carries a [request_id] carries
    the frame's own; backend failures and successes are answered as the
    spec says.  Refinement (StateMachine): every code trace is a run of
    the spec's machine.  Configuration, listener, log filter, settings and
    cache presets: their defaults, conversions, flag caching and presets.
    Termination (JsonParser): the decoder never runs out of fuel.

    ** Findings the theorems record

    The listener compares the whole [Connection] header with [upgrade], so
    a handshake sending [keep-alive, Upgrade] gets the health page
    ([Listener.http_response_token_list]).  [_parse_payload] catches only
    [JSONDecodeError]: deep nesting or a huge integer raises through the
    handler and the connection is dropped without a reply
    ([Session.serve_decoder_raise]).  Protocol errors never carry the
    frame's [request_id] ([Session.serve_invalid_frame]).  A repeated
    header name makes [dict(headers)] raise before the gate
    ([Session.handle_connection_repeated_header]).

    ** Bounds and fuel

    The receive loop is a structural recursion over the finite list of
    frames, ended by the peer's close; no fuel is needed.  The decoder is
    a mutual recursion with fuel [2 * length s + 1], where every call
    either consumes a character or is bounded by the one that did; the
    theorem [JsonParser.parse_value_fuel] shows this is always enough, so
    the fuel never changes a result.  The nesting limit 990 stands for
    the interpreter's default recursion limit (1000) less the frames of the
    handler below [json.loads]; the exact value depends on the call stack,
    and no theorem depends on it except the witness that runs 1000 nested
    brackets.  Integers are
    unbounded, as in Python.

    ** What is not modelled

    Sessions are modelled one at a time: the interleaving of connections
    on the [asyncio] event loop and the worker pool behind
    [asyncio.to_thread] are not modelled.  The transport, the
    [websockets] library and the OpenAI HTTP client are modelled by the
    behaviour the code relies on only: a send on a connection the peer
    has left raises [ConnectionClosed]; the client's [create] returns a
    response or raises.  Serialisation by [json.dumps] is not modelled: a
    sent frame is recorded as the dictionary the code passes to it.
    Floats are kept as the decimal literal they were read from, so a
    literal that CPython rounds to 0.0 (an underflow such as 1e-400)
    would be truthy here.  Logging has no effect on the gateway and is
    left out, as are the configuration loader and [get_project_dir],
    which are not under [src/] (the loaded dict and the project directory
    are parameters). *)

From stdpp Require Export base list strings sets gmap.
From Stdlib Require Export Ascii ZArith.

Declare Scope gw_scope.
Delimit Scope gw_scope with gw.
Open Scope stdpp_scope.

Create HintDb gateway discriminated.

(** ** Strings: Python's [p in s] and ASCII [str.lower] *)

Fixpoint prefixb (p s : string) : bool :=
  match p, s with
  | EmptyString, _ => true
  | String c p', String d s' => bool_decide (c = d) && prefixb p' s'
  | String _ _, EmptyString => false
  end.

(** [containsb p s] is Python's [p in s] on strings. *)
Fixpoint containsb (p s : string) : bool :=
  match s with
  | EmptyString => prefixb p s
  | String _ s' => prefixb p s || containsb p s'
  end.

Notation "p 'in_s' s" := (containsb p s) (at level 70, no associativity) : gw_scope.

(** ASCII lower case: the bytes of A..Z are shifted, every other byte is
    kept.  The header values the code lowers are ASCII-decoded by the
    WebSocket library, so this is [str.lower] on them. *)
Definition ascii_lower (c : ascii) : ascii :=
  let n := nat_of_ascii c in
  if (65 <=? n)%nat && (n <=? 90)%nat then ascii_of_nat (n + 32) else c.

Fixpoint lower (s : string) : string :=
  match s with
  | EmptyString => EmptyString
  | String c s' => String (ascii_lower c) (lower s')
  end.

(** ** A small error monad

    Python code that may raise is modelled as a function into [E + A]:
    [inl e] is the exception [e], [inr a] the value.  [x <-? m ;; k] runs
    [k] on the value of [m], and propagates an exception unchanged. *)
Definition sum_bind {E A B} (m : E + A) (k : A -> E + B) : E + B :=
  match m with inl e => inl e | inr a => k a end.

Notation "x <-? m ;; k" := (sum_bind m (fun x => k))
  (at level 100, m at next level, right associativity) : gw_scope.

Lemma sum_bind_inr {E A B} (a : A) (k : A -> E + B) : sum_bind (inr a) k = k a.
Proof. reflexivity. Qed.

Lemma sum_bind_inl {E A B} (e : E) (k : A -> E + B) : sum_bind (inl e) k = inl e.
Proof. reflexivity. Qed.

#[export] Hint Rewrite @sum_bind_inr @sum_bind_inl : gw_str.

(** ** Tactics *)

(** Case on every [match] and [if] of the goal and the hypotheses, then
    clean up the equations this produces. *)
Ltac gw_case := repeat (case_match; simplify_eq/=).

Ltac gw_done := solve [ done | eauto with gateway | lia ].

(** Case on every step of an error-monad chain that a hypothesis says
    returned. *)
Ltac sum_case :=
  repeat match goal with
  | H : context [sum_bind ?m _] |- _ =>
      let E := fresh "E" in destruct m eqn:E; cbn [sum_bind] in H
  end.

(** ** Shared lemmas *)

(** stdpp makes [String.append] [simpl never]; these are its equations. *)
Lemma string_append_nil_l (b : string) : EmptyString +:+ b = b.
Proof. reflexivity. Qed.

Lemma string_append_cons c (a b : string) : String c a +:+ b = String c (a +:+ b).
Proof. reflexivity. Qed.

Create Rewrite HintDb gw_str.
#[export] Hint Rewrite string_append_nil_l string_append_cons : gw_str.

Lemma string_append_assoc (a b c : string) :
  a +:+ (b +:+ c) = (a +:+ b) +:+ c.
Proof. induction a as [|x a IH]; autorewrite with gw_str; congruence. Qed.

Lemma prefixb_true_iff p s :
  prefixb p s = true <-> exists r, s = p +:+ r.
Proof.
  revert s; induction p as [|c p IH]; intros [|d s]; simpl.
  - split; [by exists EmptyString | done].
  - split; [by exists (String d s) | done].
  - split; [done | by intros [r ?]].
  - rewrite andb_true_iff, bool_decide_eq_true, IH. split.
    + intros [-> [r ->]]. by exists r.
    + intros [r Hr]. injection Hr as -> ->. eauto.
Qed.

Lemma containsb_true_iff p s :
  containsb p s = true <-> exists a b, s = a +:+ p +:+ b.
Proof.
  induction s as [|c s IH]; simpl.
  - rewrite prefixb_true_iff. split.
    + intros [r Hr]. by exists EmptyString, r.
    + intros [[|??] [b Hb]]; [by exists b | done].
  - rewrite orb_true_iff, prefixb_true_iff, IH. split.
    + intros [[r Hr] | [a [b ->]]].
      * by exists EmptyString, r.
      * by exists (String c a), b.
    + intros [[|c' a] [b Hb]]; simpl in Hb.
      * left. by exists b.
      * injection Hb as -> ->. right. eauto.
Qed.

Lemma containsb_app_l p a b :
  containsb p a = true -> containsb p (a +:+ b) = true.
Proof.
  rewrite !containsb_true_iff. intros (x & y & ->).
  exists x, (y +:+ b). by rewrite !string_append_assoc.
Qed.
#[export] Hint Resolve containsb_app_l : gateway.
