(* ===== verification/Json.v ===== *)
(** * Python values as the gateway handles them

    [json.loads] turns a frame into a Python value; the code then reads it
    with [dict.get], tests it with Python truthiness ([if not messages],
    [if request_id]) and combines it with [or] ([a or b or c] gives the
    first truthy operand, or the last one).  This file holds those values
    and operations, and the interface [JsonLoads] of the decoder. *)

From S2P Require Import Spec2Rocq.

(** A Python float as [json.loads] reads it: a decimal literal
    [mant * 10 ^ exp10], [Infinity] / [-Infinity], or [NaN]. *)
Inductive pyfloat := FDec (mant exp10 : Z) | FInf (neg : bool) | FNaN.

#[export] Instance pyfloat_eq_dec : EqDecision pyfloat.
Proof. solve_decision. Defined.

(** A Python value built by [json.loads] (or by the code itself when it
    builds an outbound frame).  A dict is the list of its items in
    insertion order; its keys are strings, as in JSON. *)
#[warnings="-register-all"]
Inductive pyval : Type :=
| PNone
| PBool (b : bool)
| PInt (z : Z)
| PFloat (f : pyfloat)
| PStr (s : string)
| PList (l : list pyval)
| PDict (d : list (string * pyval)).

Abbreviation pydict := (list (string * pyval)).

(** Induction through the lists of a list and the items of a dict. *)
Section pyval_ind_nested.
Variable P : pyval -> Prop.
Hypothesis HNone : P PNone.
Hypothesis HBool : forall b, P (PBool b).
Hypothesis HInt : forall z, P (PInt z).
Hypothesis HFloat : forall f, P (PFloat f).
Hypothesis HStr : forall s, P (PStr s).
Hypothesis HList : forall l, Forall P l -> P (PList l).
Hypothesis HDict : forall d, Forall (fun kv => P kv.2) d -> P (PDict d).

Fixpoint pyval_ind' (v : pyval) : P v :=
  match v with
  | PNone => HNone
  | PBool b => HBool b
  | PInt z => HInt z
  | PFloat f => HFloat f
  | PStr s => HStr s
  | PList l => HList l
      ((fix go l : Forall P l :=
          match l with
          | [] => Forall_nil_2 _
          | x :: l' => Forall_cons_2 _ _ _ (pyval_ind' x) (go l')
          end) l)
  | PDict d => HDict d
      ((fix go d : Forall (fun kv => P kv.2) d :=
          match d with
          | [] => Forall_nil_2 _
          | kv :: d' => Forall_cons_2 _ _ _ (pyval_ind' kv.2) (go d')
          end) d)
  end.
End pyval_ind_nested.

#[export] Instance pyval_eq_dec : EqDecision pyval.
Proof.
  refine (fix go (x y : pyval) {struct x} : {x = y} + {x <> y} := _).
  decide equality; try apply (decide (_ = _)).
  - apply (@list_eq_dec _ go).
  - refine (@list_eq_dec _ (fun p q => _) d d0).
    destruct p as [a v], q as [b w].
    destruct (decide (a = b)), (go v w); [left|right..]; congruence.
Defined.

(** ** Truthiness, [dict.get] and [or] *)

(** [bool(v)]: None, False, zero, and empty str, list and dict are false. *)
Definition truthy (v : pyval) : bool :=
  match v with
  | PNone => false
  | PBool b => b
  | PInt z => negb (Z.eqb z 0)
  | PFloat (FDec m _) => negb (Z.eqb m 0)
  | PFloat _ => true
  | PStr s => negb (String.eqb s "")
  | PList l => if l is [] then false else true
  | PDict d => if d is [] then false else true
  end.

(** The value stored under [k], if any: keys are unique in a dict. *)
Fixpoint dict_lookup (k : string) (d : pydict) : option pyval :=
  match d with
  | [] => None
  | (k', v) :: d' => if String.eqb k k' then Some v else dict_lookup k d'
  end.

(** [d.get(k)] and [d.get(k, default)]. *)
Definition pyget_default (d : pydict) (k : string) (dflt : pyval) : pyval :=
  match dict_lookup k d with Some v => v | None => dflt end.

Definition pyget (d : pydict) (k : string) : pyval := pyget_default d k PNone.

(** [d[k] = v]: an existing key keeps its place and takes the new value, a
    new key is added at the end. *)
Fixpoint dict_set (k : string) (v : pyval) (d : pydict) : pydict :=
  match d with
  | [] => [(k, v)]
  | (k', v') :: d' =>
      if String.eqb k k' then (k', v) :: d' else (k', v') :: dict_set k v d'
  end.

(** [a or b]: [a] when it is truthy, [b] otherwise. *)
Definition py_or (a b : pyval) : pyval := if truthy a then a else b.

(** A dict never holds a key twice, at any depth. *)
Fixpoint wf_pyval (v : pyval) : Prop :=
  match v with
  | PList l => fold_right (fun x P => wf_pyval x /\ P) True l
  | PDict d => NoDup d.*1 /\ fold_right (fun kv P => wf_pyval kv.2 /\ P) True d
  | _ => True
  end.

(** ** The decoder interface

    [json.loads] either returns a value, raises [JSONDecodeError] (which
    [_parse_payload] catches), or raises another exception: CPython's
    decoder raises [RecursionError] on deeply nested input and
    [ValueError] on an integer literal of more than 4300 digits, and
    [_parse_payload] does not catch these. *)
Inductive loads_result : Type :=
| Loaded (v : pyval)
| DecodeError
| LoadsRaised (exn : string).

Class JsonLoads := json_loads : string -> loads_result.

(** ** Lemmas *)

Lemma py_or_truthy a b : truthy a = true -> py_or a b = a.
Proof. unfold py_or. by intros ->. Qed.

Lemma py_or_falsy a b : truthy a = false -> py_or a b = b.
Proof. unfold py_or. by intros ->. Qed.

Lemma truthy_py_or a b : truthy (py_or a b) = truthy a || truthy b.
Proof. unfold py_or. destruct (truthy a) eqn:E; by rewrite ?E. Qed.

#[export] Hint Rewrite py_or_truthy py_or_falsy using assumption : gw_str.

Lemma dict_lookup_set_eq k v d : dict_lookup k (dict_set k v d) = Some v.
Proof.
  induction d as [|[k' v'] d IH]; simpl.
  - by rewrite String.eqb_refl.
  - destruct (String.eqb_spec k k') as [->|Hne]; simpl.
    + by rewrite String.eqb_refl.
    + apply String.eqb_neq in Hne. by rewrite Hne.
Qed.

Lemma dict_lookup_set_ne k k' v d :
  k <> k' -> dict_lookup k' (dict_set k v d) = dict_lookup k' d.
Proof.
  intros Hne. induction d as [|[j w] d IH]; simpl.
  - apply not_eq_sym, String.eqb_neq in Hne. by rewrite Hne.
  - destruct (String.eqb_spec k j) as [->|Hkj]; simpl.
    + by rewrite (proj2 (String.eqb_neq k' j)) by congruence.
    + by rewrite IH.
Qed.

Lemma dict_set_keys_elem k v d :
  (dict_set k v d).*1 = if decide (k ∈ d.*1) then d.*1 else d.*1 ++ [k].
Proof.
  induction d as [|[j w] d IH]; [done|].
  cbn [dict_set]. destruct (String.eqb_spec k j) as [->|Hne].
  - rewrite decide_True; [done | by left].
  - rewrite fmap_cons, IH. cbn [fst]. repeat case_decide; set_solver.
Qed.

Lemma dict_set_nodup k v d : NoDup d.*1 -> NoDup (dict_set k v d).*1.
Proof.
  rewrite dict_set_keys_elem. case_decide; [done|].
  intros Hd. apply NoDup_app. split_and!; [done | | apply NoDup_singleton].
  set_solver.
Qed.
#[export] Hint Resolve dict_set_nodup : gateway.
