(* ===== verification/JsonParser.v ===== *)
(** * A decoder for [json.loads]

    [_parse_payload] calls the standard library's [json.loads].  This file
    gives an instance of [JsonLoads] that follows CPython's C scanner
    ([Modules/_json.c]: [scan_once_unicode], [_parse_object_unicode],
    [_parse_array_unicode], [scanstring_unicode], [_match_number_unicode])
    and [json.decoder.JSONDecoder.decode]: whitespace is [ \t\n\r]; strings
    are strict (a control character is an error); [\uXXXX] escapes are
    encoded in UTF-8, a high and a low surrogate escape being joined; a
    fraction needs a digit after the dot and an exponent a digit after its
    sign, otherwise the number stops before them; [NaN], [Infinity] and
    [-Infinity] are accepted; a repeated key keeps its first place and its
    last value.  Two errors are not [JSONDecodeError]: an integer literal
    of more than 4300 digits raises [ValueError], and nesting deeper than
    the interpreter's recursion limit raises [RecursionError]; that limit
    is the parameter [max_depth].  The frame is the UTF-8 text of the
    WebSocket frame, read byte by byte. *)

From S2P Require Import Spec2Rocq Json.

Module JsonParser.

Abbreviation chars := (list ascii).

Inductive perr := PDecode | PRaise (exn : string) | PFuel.

Inductive pres (A : Type) := POk (a : A) (rest : chars) | PFail (e : perr).
Arguments POk {A}.
Arguments PFail {A}.

Definition is_ws (c : ascii) : bool :=
  match nat_of_ascii c with 32 | 9 | 10 | 13 => true | _ => false end.

Fixpoint skip_ws (s : chars) : chars :=
  match s with
  | c :: s' => if is_ws c then skip_ws s' else s
  | [] => []
  end.

Definition is_digit (c : ascii) : bool :=
  let n := nat_of_ascii c in (48 <=? n)%nat && (n <=? 57)%nat.

Fixpoint span_digits (s : chars) : chars * chars :=
  match s with
  | c :: s' => if is_digit c then let '(d, r) := span_digits s' in (c :: d, r) else ([], s)
  | [] => ([], [])
  end.

Definition digits_value (ds : chars) : Z :=
  fold_left (fun acc c => acc * 10 + (Z.of_nat (nat_of_ascii c) - 48))%Z ds 0%Z.

Definition hex_value (c : ascii) : option Z :=
  let n := Z.of_nat (nat_of_ascii c) in
  (if (48 <=? n) && (n <=? 57) then Some (n - 48)
   else if (97 <=? n) && (n <=? 102) then Some (n - 87)
   else if (65 <=? n) && (n <=? 70) then Some (n - 55)
   else None)%Z.

Definition hex4 (a b c d : ascii) : option Z :=
  match hex_value a, hex_value b, hex_value c, hex_value d with
  | Some x, Some y, Some z, Some w => Some (((x * 16 + y) * 16 + z) * 16 + w)%Z
  | _, _, _, _ => None
  end.

Definition byte_of (z : Z) : ascii := ascii_of_N (Z.to_N z).

(** The UTF-8 bytes of a code point (a lone surrogate gets the 3-byte form). *)
Definition utf8_encode (cp : Z) : chars :=
  (if cp <? 128 then [byte_of cp]
  else if cp <? 2048 then
    [byte_of (192 + Z.shiftr cp 6); byte_of (128 + Z.land cp 63)]
  else if cp <? 65536 then
    [byte_of (224 + Z.shiftr cp 12); byte_of (128 + Z.land (Z.shiftr cp 6) 63);
     byte_of (128 + Z.land cp 63)]
  else
    [byte_of (240 + Z.shiftr cp 18); byte_of (128 + Z.land (Z.shiftr cp 12) 63);
     byte_of (128 + Z.land (Z.shiftr cp 6) 63); byte_of (128 + Z.land cp 63)])%Z.

Definition is_high_surrogate (cp : Z) : bool := ((55296 <=? cp) && (cp <=? 56319))%Z.
Definition is_low_surrogate (cp : Z) : bool := ((56320 <=? cp) && (cp <=? 57343))%Z.

Definition c_quote : ascii := ascii_of_nat 34.
Definition c_backslash : ascii := ascii_of_nat 92.

(** The one-character escapes: quote, backslash, slash, b, f, n, r and t. *)
Definition simple_escape (e : ascii) : option ascii :=
  match nat_of_ascii e with
  | 34 => Some c_quote | 92 => Some c_backslash | 47 => Some (ascii_of_nat 47)
  | 98 => Some (ascii_of_nat 8) | 102 => Some (ascii_of_nat 12)
  | 110 => Some (ascii_of_nat 10) | 114 => Some (ascii_of_nat 13)
  | 116 => Some (ascii_of_nat 9)
  | _ => None
  end.

(** [scanstring_unicode]: [s] is what follows the opening quote, [acc] the
    bytes read so far, reversed. *)
Fixpoint scan_string (acc : chars) (s : chars) : pres string :=
  match s with
  | [] => PFail PDecode
  | c :: s' =>
      if bool_decide (c = c_quote) then POk (String.string_of_list_ascii (rev acc)) s'
      else if bool_decide (c = c_backslash) then
        match s' with
        | [] => PFail PDecode
        | e :: s'' =>
            if bool_decide (e = "u"%char) then
              match s'' with
              | h1 :: h2 :: h3 :: h4 :: s3 =>
                  match hex4 h1 h2 h3 h4 with
                  | None => PFail PDecode
                  | Some cp =>
                      if is_high_surrogate cp then
                        match s3 with
                        | b :: u :: l1 :: l2 :: l3 :: l4 :: s4 =>
                            if bool_decide (b = c_backslash) && bool_decide (u = "u"%char) then
                              match hex4 l1 l2 l3 l4 with
                              | None => PFail PDecode
                              | Some lo =>
                                  if is_low_surrogate lo then
                                    scan_string
                                      (rev (utf8_encode (65536 + (cp - 55296) * 1024 + (lo - 56320))%Z) ++ acc) s4
                                  else scan_string (rev (utf8_encode cp) ++ acc) s3
                              end
                            else scan_string (rev (utf8_encode cp) ++ acc) s3
                        | _ => scan_string (rev (utf8_encode cp) ++ acc) s3
                        end
                      else scan_string (rev (utf8_encode cp) ++ acc) s3
                  end
              | _ => PFail PDecode
              end
            else
              match simple_escape e with
              | Some x => scan_string (x :: acc) s''
              | None => PFail PDecode
              end
        end
      else if (nat_of_ascii c <? 32)%nat then PFail PDecode
      else scan_string (c :: acc) s'
  end.

(** The next character, when it is [c]. *)
Definition peek (c : ascii) (s : chars) : option chars :=
  match s with d :: r => if bool_decide (d = c) then Some r else None | [] => None end.

Fixpoint strip_prefix (p s : chars) : option chars :=
  match p, s with
  | [], _ => Some s
  | c :: p', d :: s' => if bool_decide (c = d) then strip_prefix p' s' else None
  | _ :: _, [] => None
  end.

(** The named constants of [scan_once_unicode], each tried on its first
    character. *)
Definition literals : list (chars * pyval) :=
  [(String.list_ascii_of_string "null", PNone);
   (String.list_ascii_of_string "true", PBool true);
   (String.list_ascii_of_string "false", PBool false);
   (String.list_ascii_of_string "NaN", PFloat FNaN);
   (String.list_ascii_of_string "Infinity", PFloat (FInf false));
   (String.list_ascii_of_string "-Infinity", PFloat (FInf true))].

Fixpoint match_literal_in (lits : list (chars * pyval)) (s : chars) : option (pyval * chars) :=
  match lits with
  | [] => None
  | (p, v) :: lits' =>
      match strip_prefix p s with
      | Some r => Some (v, r)
      | None => match_literal_in lits' s
      end
  end.

(** [_match_number_unicode], phase by phase: an optional minus; [0] or a
    run of digits; an optional fraction (a dot and at least one digit); an
    optional exponent (an [e], a sign and at least one digit). *)
Definition scan_sign (s : chars) : bool * chars :=
  match peek "-"%char s with Some r => (true, r) | None => (false, s) end.

Definition scan_int (s1 : chars) : option (chars * chars) :=
  match peek "0"%char s1 with
  | Some r => Some (["0"%char], r)
  | None => match s1 with c :: _ => if is_digit c then Some (span_digits s1) else None | [] => None end
  end.

Definition scan_frac (r1 : chars) : chars * chars :=
  match peek "."%char r1 with
  | Some (d :: r) => if is_digit d then span_digits (d :: r) else ([], r1)
  | _ => ([], r1)
  end.

Definition scan_exp_sign (r : chars) : bool * chars :=
  match peek "+"%char r with
  | Some x => (false, x)
  | None => match peek "-"%char r with Some x => (true, x) | None => (false, r) end
  end.

Definition scan_exp (r2 : chars) : option Z * chars :=
  match r2 with
  | e :: r =>
      if bool_decide (e = "e"%char) || bool_decide (e = "E"%char) then
        let '(eneg, r') := scan_exp_sign r in
        match span_digits r' with
        | ([], _) => (None, r2)
        | (eds, r'') => (Some (if eneg then - digits_value eds else digits_value eds)%Z, r'')
        end
      else (None, r2)
  | [] => (None, r2)
  end.

Definition match_number (s : chars) : pres pyval :=
  let '(neg, s1) := scan_sign s in
  match scan_int s1 with
  | None => PFail PDecode
  | Some (ids, r1) =>
      let '(fds, r2) := scan_frac r1 in
      let '(ex, r3) := scan_exp r2 in
      let mant := digits_value (ids ++ fds) in
      let mant := (if neg then - mant else mant)%Z in
      match fds, ex with
      | [], None =>
          if (4300 <? length ids)%nat then PFail (PRaise "ValueError") else POk (PInt mant) r3
      | _, _ =>
          POk (PFloat (FDec mant (default 0 ex - Z.of_nat (length fds))%Z)) r3
      end
  end.

(** [scan_once_unicode] and the container parsers.  [depth] is how many
    more containers may be opened before [RecursionError]; [fuel] bounds
    the recursion and is never exhausted from [2 * length s + 1] on
    ([parse_value_fuel]). *)
Fixpoint parse_value (fuel depth : nat) (s : chars) {struct fuel} : pres pyval :=
  match fuel with
  | O => PFail PFuel
  | S f =>
      match s with
      | [] => PFail PDecode
      | c :: s' =>
          if bool_decide (c = c_quote) then
            match scan_string [] s' with
            | POk str r => POk (PStr str) r
            | PFail e => PFail e
            end
          else if bool_decide (c = "{"%char) then
            match depth with
            | O => PFail (PRaise "RecursionError")
            | S d =>
                match peek "}"%char (skip_ws s') with
                | Some r => POk (PDict []) r
                | None => parse_object_items f d [] (skip_ws s')
                end
            end
          else if bool_decide (c = "["%char) then
            match depth with
            | O => PFail (PRaise "RecursionError")
            | S d =>
                match peek "]"%char (skip_ws s') with
                | Some r => POk (PList []) r
                | None => parse_array_items f d [] (skip_ws s')
                end
            end
          else
            match match_literal_in literals s with
            | Some (v, r) => POk v r
            | None => match_number s
            end
      end
  end
with parse_array_items (fuel depth : nat) (acc : list pyval) (s : chars) {struct fuel}
    : pres pyval :=
  match fuel with
  | O => PFail PFuel
  | S f =>
      match parse_value f depth s with
      | PFail e => PFail e
      | POk v r =>
          match peek "]"%char (skip_ws r) with
          | Some r' => POk (PList (rev (v :: acc))) r'
          | None =>
              match peek ","%char (skip_ws r) with
              | Some r' => parse_array_items f depth (v :: acc) (skip_ws r')
              | None => PFail PDecode
              end
          end
      end
  end
with parse_object_items (fuel depth : nat) (acc : pydict) (s : chars) {struct fuel}
    : pres pyval :=
  match fuel with
  | O => PFail PFuel
  | S f =>
      match peek c_quote s with
      | None => PFail PDecode
      | Some s' =>
          match scan_string [] s' with
          | PFail e => PFail e
          | POk k r =>
              match peek ":"%char (skip_ws r) with
              | None => PFail PDecode
              | Some r' =>
                  match parse_value f depth (skip_ws r') with
                  | PFail e => PFail e
                  | POk v r'' =>
                      let acc' := dict_set k v acc in
                      match peek "}"%char (skip_ws r'') with
                      | Some r3 => POk (PDict acc') r3
                      | None =>
                          match peek ","%char (skip_ws r'') with
                          | Some r3 => parse_object_items f depth acc' (skip_ws r3)
                          | None => PFail PDecode
                          end
                      end
                  end
              end
          end
      end
  end.

(** [JSONDecoder.decode]: whitespace, one value, whitespace, the end. *)
Definition loads_with (max_depth : nat) (str : string) : loads_result :=
  let s := skip_ws (String.list_ascii_of_string str) in
  match parse_value (2 * length s + 1) max_depth s with
  | POk v r => if skip_ws r is [] then Loaded v else DecodeError
  | PFail (PRaise e) => LoadsRaised e
  | PFail _ => DecodeError
  end.

(** ** The fuel is enough

    Every call that recurses has consumed input before, so a parse of [s]
    never needs more than [2 * length s + 1] steps.  [pres_ok s r] says
    that a result neither ran out of fuel nor gave back more input than it
    was handed. *)

Definition pres_ok {A} (s : chars) (r : pres A) : Prop :=
  match r with POk _ rest => length rest < length s | PFail e => e <> PFuel end.

Lemma pres_ok_weaken {A} s1 s2 (r : pres A) :
  length s1 <= length s2 -> pres_ok s1 r -> pres_ok s2 r.
Proof. destruct r; simpl; lia || done. Qed.

Lemma peek_length c s r : peek c s = Some r -> length s = S (length r).
Proof. destruct s; simpl; [done|]. case_bool_decide; intros; simplify_eq; done. Qed.

Lemma skip_ws_length s : length (skip_ws s) <= length s.
Proof. induction s as [|c s IH]; simpl; [done|]. destruct (is_ws c); simpl; lia. Qed.

Lemma span_digits_length s d r : span_digits s = (d, r) -> length s = length d + length r.
Proof.
  revert d r. induction s as [|c s IH]; intros d r; simpl; [intros; by simplify_eq|].
  destruct (is_digit c); [|intros; simplify_eq/=; done].
  destruct (span_digits s) as [d' r'] eqn:E. intros H. injection H as <- <-.
  simpl. by rewrite (IH d' r' eq_refl).
Qed.

Lemma strip_prefix_length p s r : strip_prefix p s = Some r -> length s = length p + length r.
Proof.
  revert s. induction p as [|c p IH]; intros [|d s]; simpl; intros H; simplify_eq; try done.
  case_bool_decide; [|done]. by rewrite (IH s H).
Qed.

Lemma match_literal_length lits s v r :
  Forall (fun pv => pv.1 <> []) lits -> match_literal_in lits s = Some (v, r) ->
  length r < length s.
Proof.
  induction 1 as [|[p w] lits Hp _ IH]; simpl; [done|].
  destruct (strip_prefix p s) eqn:E; [|done]. intros; simplify_eq.
  apply strip_prefix_length in E. destruct p; simpl in *; [done | lia].
Qed.

Lemma scan_string_ok n acc s : length s <= n -> pres_ok s (scan_string acc s).
Proof.
  revert acc s. induction n as [|n IH]; intros acc [|c s] Hn; [done | cbn in Hn; lia | done |].
  cbn [scan_string]. repeat case_match; simplify_eq;
    first [ by unfold pres_ok
          | unfold pres_ok; cbn [length]; lia
          | eapply pres_ok_weaken; [|apply IH]; cbn [length] in *; lia ].
Qed.

Lemma span_digits_digit_length c l d r :
  is_digit c = true -> span_digits (c :: l) = (d, r) -> length r <= length l.
Proof.
  intros Hc. cbn [span_digits]. rewrite Hc.
  destruct (span_digits l) as [d' r'] eqn:E. intros H. injection H as <- <-.
  apply span_digits_length in E. lia.
Qed.

Lemma scan_sign_length s neg s1 : scan_sign s = (neg, s1) -> length s1 <= length s.
Proof.
  unfold scan_sign. destruct (peek _ s) eqn:E; intros; simplify_eq;
    [apply peek_length in E; lia | done].
Qed.

Lemma scan_int_length s1 ids r1 : scan_int s1 = Some (ids, r1) -> length r1 < length s1.
Proof.
  unfold scan_int. destruct (peek _ s1) eqn:E.
  - intros; simplify_eq. apply peek_length in E. lia.
  - destruct s1 as [|c l]; [done|]. destruct (is_digit c) eqn:Hc; [|done].
    intros H. injection H as H. apply span_digits_digit_length in H; [simpl; lia | done].
Qed.

Lemma scan_frac_length r1 fds r2 : scan_frac r1 = (fds, r2) -> length r2 <= length r1.
Proof.
  unfold scan_frac. destruct (peek _ r1) as [[|d r]|] eqn:E; try (intros; simplify_eq; lia).
  destruct (is_digit d); [|intros; simplify_eq; lia].
  intros H. apply span_digits_length in H. apply peek_length in E. simpl in *. lia.
Qed.

Lemma scan_exp_length r2 ex r3 : scan_exp r2 = (ex, r3) -> length r3 <= length r2.
Proof.
  unfold scan_exp. destruct r2 as [|e r]; [intros; by simplify_eq|].
  destruct (_ || _); [|intros; simplify_eq; lia].
  destruct (scan_exp_sign r) as [eneg r'] eqn:Es.
  assert (length r' <= length r) as Hr'.
  { unfold scan_exp_sign in Es. destruct (peek "+"%char r) eqn:E1.
    - apply peek_length in E1. simplify_eq. lia.
    - destruct (peek "-"%char r) eqn:E2; simplify_eq; [apply peek_length in E2|]; lia. }
  destruct (span_digits r') as [[|d ds] r''] eqn:E; intros; simplify_eq; [simpl; lia|].
  apply span_digits_length in E. simpl in *. lia.
Qed.

Lemma match_number_ok s : pres_ok s (match_number s).
Proof.
  unfold match_number.
  destruct (scan_sign s) as [neg s1] eqn:Es. apply scan_sign_length in Es.
  destruct (scan_int s1) as [[ids r1]|] eqn:Ei; [|done]. apply scan_int_length in Ei.
  destruct (scan_frac r1) as [fds r2] eqn:Ef. apply scan_frac_length in Ef.
  destruct (scan_exp r2) as [ex r3] eqn:Ee. apply scan_exp_length in Ee.
  repeat case_match; unfold pres_ok; simpl; try done; lia.
Qed.

Lemma match_literal_ok s v r :
  match_literal_in literals s = Some (v, r) -> length r < length s.
Proof.
  apply match_literal_length. repeat (constructor; [cbn; discriminate|]). constructor.
Qed.

Lemma pres_ok_fail {A} s e : e <> PFuel -> pres_ok (A := A) s (PFail e).
Proof. done. Qed.

Lemma parse_fuel_ok F :
  (forall d s, 2 * length s + 1 <= F -> pres_ok s (parse_value F d s)) /\
  (forall d acc s, 2 * length s + 2 <= F -> pres_ok s (parse_array_items F d acc s)) /\
  (forall d acc s, 2 * length s + 2 <= F -> pres_ok s (parse_object_items F d acc s)).
Proof.
  induction F as [|f (IHv & IHa & IHo)]; [split_and!; intros; lia|]. split_and!.
  - intros d [|c s'] HF; cbn [parse_value]; [by apply pres_ok_fail|].
    pose proof (skip_ws_length s'). cbn [length] in HF.
    case_bool_decide; [|case_bool_decide; [|case_bool_decide]].
    + pose proof (scan_string_ok (length s') [] s' (le_n _)) as Hs.
      destruct (scan_string [] s'); unfold pres_ok in *; simpl; [lia | done].
    + destruct d as [|d]; [by apply pres_ok_fail|].
      destruct (peek "}"%char (skip_ws s')) eqn:E; [apply peek_length in E; unfold pres_ok; simpl; lia|].
      eapply pres_ok_weaken; [|apply IHo; lia]. simpl; lia.
    + destruct d as [|d]; [by apply pres_ok_fail|].
      destruct (peek "]"%char (skip_ws s')) eqn:E; [apply peek_length in E; unfold pres_ok; simpl; lia|].
      eapply pres_ok_weaken; [|apply IHa; lia]. simpl; lia.
    + destruct (match_literal_in literals (c :: s')) as [[v r]|] eqn:E; [|apply match_number_ok].
      apply match_literal_ok in E. done.
  - intros d acc s HF. cbn [parse_array_items].
    pose proof (IHv d s ltac:(lia)) as Hv.
    destruct (parse_value f d s) as [v r|e]; [|exact Hv]. unfold pres_ok in Hv.
    pose proof (skip_ws_length r).
    destruct (peek "]"%char (skip_ws r)) eqn:E1; [apply peek_length in E1; unfold pres_ok; lia|].
    destruct (peek ","%char (skip_ws r)) as [r'|] eqn:E2; [|by apply pres_ok_fail].
    apply peek_length in E2. pose proof (skip_ws_length r').
    eapply pres_ok_weaken; [|apply IHa; lia]. lia.
  - intros d acc s HF. cbn [parse_object_items].
    destruct (peek c_quote s) as [s'|] eqn:Eq; [|by apply pres_ok_fail]. apply peek_length in Eq.
    pose proof (scan_string_ok (length s') [] s' (le_n _)) as Hs.
    destruct (scan_string [] s') as [k r|e]; [|exact Hs]. unfold pres_ok in Hs.
    pose proof (skip_ws_length r).
    destruct (peek ":"%char (skip_ws r)) as [r'|] eqn:Ec; [|by apply pres_ok_fail].
    apply peek_length in Ec. pose proof (skip_ws_length r').
    pose proof (IHv d (skip_ws r') ltac:(lia)) as Hv.
    destruct (parse_value f d (skip_ws r')) as [v r''|e]; [|exact Hv]. unfold pres_ok in Hv.
    pose proof (skip_ws_length r'').
    destruct (peek "}"%char (skip_ws r'')) eqn:E1; [apply peek_length in E1; unfold pres_ok; lia|].
    destruct (peek ","%char (skip_ws r'')) as [r3|] eqn:E2; [|by apply pres_ok_fail].
    apply peek_length in E2. pose proof (skip_ws_length r3).
    eapply pres_ok_weaken; [|apply IHo; lia]. lia.
Qed.


(** A JSON text written with single quotes for double ones, for the
    example frames of the development. *)
Definition sq_json (s : string) : string :=
  String.string_of_list_ascii
    (map (fun c => if bool_decide (c = "'"%char) then c_quote else c) (String.list_ascii_of_string s)).

(** CPython's default recursion limit is 1000 frames; the decoder is
    entered a few frames deep. *)
#[export] Instance cpython_loads : JsonLoads := loads_with 990.

End JsonParser.
