(* ===== verification/Auth.v ===== *)
(** * The authentication gate of [_handle_connection]

    [src/core/gateway_server.py], lines 78-89: the handshake headers are
    copied into a dict, the [device-id] header is read, and two guards
    reject the connection: a required id that is missing (or empty), and an
    id outside a non-empty allow-list.  The policy is the pair of
    attributes [require_device_id] and [allowed_devices] that the
    constructor reads from the configuration (lines 46-47). *)

From S2P Require Import Spec2Rocq Json.

Module Auth.

(** The two attributes the gate reads.  [require_device_id] is the raw
    configuration value: the code only tests its truthiness.
    [allowed_devices] is [set(...)] of the configured list. *)
Record policy := Policy {
  require_device_id : pyval;
  allowed_devices : list pyval
}.

Abbreviation header := (string * string)%type.

(** [dict(websocket.request.headers)].  The WebSocket library keeps the
    header names lower-cased; turning its multi-map into a dict reads each
    name with [headers[name]], which raises [MultipleValuesError] when the
    name occurs more than once. *)
Definition headers_dict (hs : list header) : option (list header) :=
  let names := map (fun h => lower h.1) hs in
  if decide (NoDup names) then Some (map (fun h => (lower h.1, h.2)) hs)
  else None.

(** [headers.get(name)]. *)
Fixpoint header_get (h : list header) (name : string) : option string :=
  match h with
  | [] => None
  | (k, v) :: h' => if String.eqb k name then Some v else header_get h' name
  end.

(** [device_id] as a Python value: a str, or None when the header is absent. *)
Definition dev_pyval (dev : option string) : pyval :=
  match dev with Some s => PStr s | None => PNone end.

Definition msg_missing_device : string := "缺少device-id，拒绝连接。".
Definition msg_unauthorized : string := "device-id未授权。".

Inductive auth_result := AuthAccept | AuthReject (reason : string).

(** Lines 81-89: [if self.require_device_id and not device_id] rejects,
    then [if self.allowed_devices and device_id not in self.allowed_devices]
    rejects; otherwise the session goes on. *)
Definition authenticate (p : policy) (dev : option string) : auth_result :=
  if truthy (require_device_id p) && negb (truthy (dev_pyval dev)) then
    AuthReject msg_missing_device
  else if (if allowed_devices p is [] then false else true)
          && negb (bool_decide (dev_pyval dev ∈ allowed_devices p)) then
    AuthReject msg_unauthorized
  else AuthAccept.

(** ** The spec's algorithm (spec 4.2)

    1. a required id that was not supplied is rejected; 2. a non-empty
    allow-list rejects an id that is not in it; 3. everything else is
    accepted.  The policy here is typed: a boolean and a list of strings. *)
Definition spec_accepts (require : bool) (allowed : list string)
    (dev : option string) : bool :=
  if require && bool_decide (dev = None) then false
  else if (if allowed is [] then false else true) then
    match dev with Some s => bool_decide (s ∈ allowed) | None => false end
  else true.

(** The configuration a typed policy stands for. *)
Definition policy_of (require : bool) (allowed : list string) : policy :=
  Policy (PBool require) (map PStr allowed).

Lemma dev_pyval_in_strs dev allowed :
  dev_pyval dev ∈ map PStr allowed <->
  match dev with Some s => s ∈ allowed | None => False end.
Proof.
  destruct dev as [s|]; simpl; rewrite list_elem_of_fmap.
  - split; [intros (t & Ht & ?); by simplify_eq | eauto].
  - split; [by intros (? & ? & _) | done].
Qed.

Lemma truthy_dev_pyval dev :
  truthy (dev_pyval dev) = match dev with Some s => negb (String.eqb s "") | None => false end.
Proof. by destruct dev. Qed.

Lemma authenticate_missing p dev :
  truthy (require_device_id p) = true -> truthy (dev_pyval dev) = false ->
  authenticate p dev = AuthReject msg_missing_device.
Proof. intros Hr Hd. unfold authenticate. by rewrite Hr, Hd. Qed.

Lemma authenticate_unlisted p d :
  d <> "" -> allowed_devices p <> [] -> PStr d ∉ allowed_devices p ->
  authenticate p (Some d) = AuthReject msg_unauthorized.
Proof.
  intros Hd Ha Hn. unfold authenticate. cbn [dev_pyval truthy].
  rewrite (proj2 (String.eqb_neq d "")) by done. cbn [negb]. rewrite andb_false_r.
  destruct (allowed_devices p) as [|x l]; [done|].
  rewrite bool_decide_false; done.
Qed.

(** Two headers whose names differ only in letter case make the dict
    conversion raise. *)
Lemma headers_dict_repeated pre mid post k1 v1 k2 v2 :
  lower k1 = lower k2 ->
  headers_dict (pre ++ (k1, v1) :: mid ++ (k2, v2) :: post) = None.
Proof.
  intros Hk. unfold headers_dict. rewrite decide_False; [done|].
  rewrite !fmap_app, !fmap_cons. cbn [fst]. rewrite Hk.
  intros Hnd. apply NoDup_app in Hnd as (_ & _ & Hnd).
  apply NoDup_cons in Hnd as [Hnin _]. apply Hnin. rewrite fmap_app, fmap_cons. set_solver.
Qed.

(** C4: the gate refines the spec's algorithm.  On a typed policy and any
    device id other than an empty header, the code accepts exactly the
    connections the spec's three steps accept. *)
Theorem authenticate_refines_spec require allowed dev :
  dev <> Some "" ->
  authenticate (policy_of require allowed) dev = AuthAccept <->
  spec_accepts require allowed dev = true.
Proof.
  intros Hne. unfold authenticate, spec_accepts, policy_of.
  cbn [require_device_id allowed_devices].
  destruct dev as [s|]; cbn [dev_pyval truthy].
  - rewrite (proj2 (String.eqb_neq s "")) by congruence.
    assert (bool_decide (PStr s ∈ map PStr allowed) = bool_decide (s ∈ allowed)) as ->.
    { apply bool_decide_ext. apply (dev_pyval_in_strs (Some s)). }
    destruct require, allowed; simpl; try case_bool_decide; naive_solver.
  - assert (bool_decide (PNone ∈ map PStr allowed) = false) as ->.
    { apply bool_decide_eq_false. intros Hin. by apply (dev_pyval_in_strs None allowed). }
    by destruct require, allowed.
Qed.

Lemma authenticate_refines_spec_witness :
  authenticate (policy_of true ["A"]) (Some "B") = AuthAccept <->
  spec_accepts true ["A"] (Some "B") = true.
Proof. apply authenticate_refines_spec. discriminate. Defined.



End Auth.
