(* ===== verification/Normalizer.v ===== *)
(** * The message normaliser

    [_parse_payload] (lines 143-151) and the part of [_handle_message]
    that turns a frame into the [messages] argument of the backend call
    (lines 99-116).  The decoder is any instance of [JsonLoads]. *)

From S2P Require Import Spec2Rocq Json JsonParser.
Import JsonParser.

Module Normalizer.

(** What [async for message in websocket] yields: a [str] for a text frame,
    [bytes] for a binary one. *)
Inductive message := MText (s : string) | MBytes (b : list Byte.byte).

Definition msg_binary : string := "仅支持文本消息。".
Definition msg_invalid : string := "消息格式不合法。".
Definition msg_no_content : string := "缺少messages或text字段。".

Inductive parsed :=
| Payload (d : pydict)        (** a dict *)
| NotAnObject                 (** [None]: valid JSON that is not a dict *)
| ParseRaised (exn : string). (** the decoder raised past [except JSONDecodeError] *)

Section WithDecoder.
Context `{JsonLoads}.

(** Lines 143-151: a decode error makes the raw text a [{"text": message}]
    payload; a dict is the payload; any other value is [None]. *)
Definition parse_payload (s : string) : parsed :=
  match json_loads s with
  | DecodeError => Payload [("text", PStr s)]
  | LoadsRaised e => ParseRaised e
  | Loaded (PDict d) => Payload d
  | Loaded _ => NotAnObject
  end.

Inductive normalized :=
| Turns (messages request_id : pyval)  (** go on to the backend call *)
| Invalid (reason : string)            (** one error frame, no request id *)
| Raised (exn : string).               (** the handler raises *)

(** Lines 108-116 on a payload: a truthy [messages] is used as it is;
    otherwise [text or content or prompt], when truthy, becomes one user
    turn; [request_id] is read with [payload.get]. *)
Definition normalize_payload (d : pydict) : normalized :=
  let messages := pyget d "messages" in
  if truthy messages then Turns messages (pyget d "request_id")
  else
    let text := py_or (py_or (pyget d "text") (pyget d "content")) (pyget d "prompt") in
    if truthy text then
      Turns (PList [PDict [("role", PStr "user"); ("content", text)]]) (pyget d "request_id")
    else Invalid msg_no_content.

(** Lines 99-106 and the above. *)
Definition normalize (m : message) : normalized :=
  match m with
  | MBytes _ => Invalid msg_binary
  | MText s =>
      match parse_payload s with
      | ParseRaised e => Raised e
      | NotAnObject => Invalid msg_invalid
      | Payload d => normalize_payload d
      end
  end.

(** The [request_id] the code reads from a frame, [None] when it has none. *)
Definition frame_request_id (m : message) : pyval :=
  match m with
  | MText s => match parse_payload s with Payload d => pyget d "request_id" | _ => PNone end
  | MBytes _ => PNone
  end.

Lemma normalize_turns_request_id m msgs rid :
  normalize m = Turns msgs rid -> rid = frame_request_id m.
Proof.
  destruct m as [s|]; simpl; [|done].
  destruct (parse_payload s) as [d| |]; try done.
  unfold normalize_payload. by repeat case_match; intros; simplify_eq.
Qed.

(** The first truthy value of a list: what [a or b or c] selects when
    one of them is truthy. *)
Fixpoint first_truthy (vs : list pyval) : option pyval :=
  match vs with
  | [] => None
  | v :: vs' => if truthy v then Some v else first_truthy vs'
  end.

Lemma or3_first_truthy a b c :
  first_truthy [a; b; c] =
    if truthy (py_or (py_or a b) c) then Some (py_or (py_or a b) c) else None.
Proof.
  unfold py_or; simpl.
  destruct (truthy a) eqn:Ea; simpl; rewrite ?Ea; [done|].
  destruct (truthy b) eqn:Eb; simpl; rewrite ?Eb; [done|].
  by destruct (truthy c).
Qed.

(** C14: a text frame that is not JSON is a single user turn holding the
    raw text, without a request id. *)
Theorem normalize_plain_text s :
  json_loads s = DecodeError -> s <> "" ->
  normalize (MText s) =
    Turns (PList [PDict [("role", PStr "user"); ("content", PStr s)]]) PNone.
Proof.
  intros Hs Hne. unfold normalize, parse_payload. rewrite Hs.
  assert (E : String.eqb s "" = false) by (by apply String.eqb_neq).
  unfold normalize_payload, py_or, pyget, pyget_default.
  do 3 (simpl; rewrite ?E). done.
Qed.

(** C15: a truthy [messages] value is handed on unchanged, with the
    frame's [request_id]. *)
Theorem normalize_messages_verbatim s d :
  json_loads s = Loaded (PDict d) -> truthy (pyget d "messages") = true ->
  normalize (MText s) = Turns (pyget d "messages") (pyget d "request_id").
Proof.
  intros Hs Hm. unfold normalize, parse_payload. rewrite Hs.
  unfold normalize_payload. by rewrite Hm.
Qed.

(** C16: the flat-text fallback takes the first truthy of [text],
    [content] and [prompt] as the user turn, and a frame with none of them
    is invalid. *)
Theorem normalize_payload_fallback d :
  truthy (pyget d "messages") = false ->
  normalize_payload d =
    match first_truthy [pyget d "text"; pyget d "content"; pyget d "prompt"] with
    | Some t => Turns (PList [PDict [("role", PStr "user"); ("content", t)]]) (pyget d "request_id")
    | None => Invalid msg_no_content
    end.
Proof.
  intros Hm. unfold normalize_payload. rewrite Hm, or3_first_truthy.
  by destruct (truthy (py_or (py_or _ _) _)).
Qed.

(** C17: valid JSON that is not an object is an invalid frame. *)
Theorem normalize_non_object s v :
  json_loads s = Loaded v -> (forall d, v <> PDict d) ->
  normalize (MText s) = Invalid msg_invalid.
Proof.
  intros Hs Hv. unfold normalize, parse_payload. rewrite Hs.
  destruct v; try done. by destruct (Hv d).
Qed.

End WithDecoder.

Lemma normalize_plain_text_witness :
  normalize (MText "hello") =
    Turns (PList [PDict [("role", PStr "user"); ("content", PStr "hello")]]) PNone.
Proof. apply normalize_plain_text; [vm_compute; reflexivity | discriminate]. Defined.

Lemma normalize_messages_verbatim_witness :
  normalize (MText (sq_json "{'messages':[{'role':'user','content':'x'}]}")) =
    Turns (PList [PDict [("role", PStr "user"); ("content", PStr "x")]]) PNone.
Proof.
  apply (normalize_messages_verbatim _
    [("messages", PList [PDict [("role", PStr "user"); ("content", PStr "x")]])]);
    vm_compute; reflexivity.
Defined.

Lemma normalize_payload_fallback_witness :
  normalize_payload [("text", PStr ""); ("content", PInt 0); ("prompt", PStr "p")] =
    Turns (PList [PDict [("role", PStr "user"); ("content", PStr "p")]]) PNone.
Proof. rewrite normalize_payload_fallback; vm_compute; reflexivity. Defined.

Lemma normalize_non_object_witness :
  normalize (MText "[1, 2]") = Invalid msg_invalid.
Proof.
  apply (normalize_non_object _ (PList [PInt 1; PInt 2])); [vm_compute; reflexivity | discriminate].
Defined.

End Normalizer.
