(* ===== verification/Backend.v ===== *)
(** * The backend adapter [_call_openai]

    Lines 133-141.  The OpenAI client is the interface [ChatClient]: its
    [chat.completions.create] either returns a response or raises, and may
    answer the n-th call differently from the others (a timeout now, a
    reply later).  The adapter returns the first choice's text, or the
    empty string when the response has no choice, no message or no
    content. *)

From S2P Require Import Spec2Rocq Json.

Module Backend.

(** The parts of the client's response objects the code reads. *)
Record chat_message := ChatMessage { content : option string }.
Record choice := Choice { message : option chat_message }.
Record chat_response := ChatResponse { choices : list choice }.

Inductive create_outcome :=
| Returned (r : chat_response)
| CreateRaised (exn : string).   (** [str(exc)] of what the client raised *)

(** [client.chat.completions.create(model=..., messages=...)] on its n-th
    call.  The model is the configured value and the messages whatever
    value the normaliser produced: neither is checked by the code. *)
Class ChatClient := chat_create : nat -> pyval -> pyval -> create_outcome.

(** Lines 138-141.  A response object is always truthy, so [choice and
    getattr(choice, "message", None)] only tests that the message is there;
    [content or ""] maps [None] (and [""]) to [""]. *)
Definition first_choice_text (r : chat_response) : string :=
  match choices r with
  | [] => ""
  | c :: _ =>
      match message c with
      | Some m => match content m with Some s => s | None => "" end
      | None => ""
      end
  end.

(** The whole adapter on the n-th call: [inl] is the exception the call
    raised, [inr] the text. *)
Definition call_openai `{ChatClient} (n : nat) (model : pyval) (msgs : pyval)
    : string + string :=
  match chat_create n model msgs with
  | CreateRaised e => inl e
  | Returned r => inr (first_choice_text r)
  end.

End Backend.
