(* ===== verification/Session.v ===== *)
(** * A connection session: [_handle_connection] and [_handle_message]

    Lines 77-131 and 153-157.  A session is run over the list of frames the
    peer sends; the end of the list is the peer closing the connection,
    which ends [async for].  Each frame says whether the peer was still
    there when the reply was sent: a send on a connection the peer has left
    raises [ConnectionClosed], which line 95 catches, so the loop ends.
    The session produces the trace of what the gateway does. *)

From S2P Require Import Spec2Rocq Json JsonParser Auth Normalizer Backend.
Import JsonParser Auth Backend Normalizer.

Module Session.

Inductive action :=
| ARecv (m : message)        (** [async for] hands the next frame over *)
| ASend (frame : pyval)      (** [websocket.send(json.dumps(frame))] *)
| ACall (messages : pyval)   (** the backend call, run by [asyncio.to_thread] *)
| AClose                     (** [websocket.close()] by the gateway *)
| AAbort (exn : string).     (** the handler raised; the library drops the connection *)

(** A frame, and whether the peer left before its reply was sent. *)
Inductive inbound := Arrive (m : message) (peer_left : bool).

(** How the handling of a frame ends: the loop reads the next frame, or the
    send raised [ConnectionClosed], or another exception escaped. *)
Inductive outcome := Next | PeerClosed | Crashed.

(** The attributes of [GatewayWebSocketServer] a session reads. *)
Record server := Server { srv_policy : policy; srv_model : pyval }.

(** Lines 153-157 ([_send_error]): [request_id] is added only when truthy. *)
Definition error_payload (msg : string) (rid : pyval) : pyval :=
  let p := [("type", PStr "error"); ("message", PStr msg)] in
  PDict (if truthy rid then dict_set "request_id" rid p else p).

(** Lines 124-130. *)
Definition response_payload (dev : option string) (text : string) (rid : pyval) : pyval :=
  let p := [("type", PStr "response"); ("device_id", dev_pyval dev); ("content", PStr text)] in
  PDict (if truthy rid then dict_set "request_id" rid p else p).

Definition backend_error_text (exc : string) : string := "OpenAI请求失败: " +:+ exc.

(** [await websocket.send(...)]: nothing is sent and [ConnectionClosed] is
    raised when the peer has left. *)
Definition send_frame (peer_left : bool) (p : pyval) : list action * outcome :=
  if peer_left then ([], PeerClosed) else ([ASend p], Next).

Definition sends (acts : list action) : list pyval :=
  omap (fun a => if a is ASend p then Some p else None) acts.

Definition calls (acts : list action) : list pyval :=
  omap (fun a => if a is ACall m then Some m else None) acts.

Lemma sends_app a b : sends (a ++ b) = sends a ++ sends b.
Proof. apply omap_app. Qed.
Lemma sends_recv m a : sends (ARecv m :: a) = sends a.
Proof. reflexivity. Qed.

#[export] Hint Rewrite sends_app sends_recv : gw_str.

Section WithEnv.
Context `{JsonLoads} `{ChatClient}.

(** Lines 98-131 on a frame, when the backend has been called [n] times:
    the actions, the new call count and how the handling ended. *)
Definition handle_message (srv : server) (n : nat) (dev : option string)
    (m : message) (peer_left : bool) : list action * nat * outcome :=
  match normalize m with
  | Invalid reason =>
      let '(a, o) := send_frame peer_left (error_payload reason PNone) in (a, n, o)
  | Raised e => ([AAbort e], n, Crashed)
  | Turns msgs rid =>
      let reply :=
        match call_openai n (srv_model srv) msgs with
        | inl exc => error_payload (backend_error_text exc) rid
        | inr text => response_payload dev text rid
        end in
      let '(a, o) := send_frame peer_left reply in (ACall msgs :: a, S n, o)
  end.

(** Lines 92-96: [async for message in websocket], one frame at a time. *)
Fixpoint serve (srv : server) (n : nat) (dev : option string)
    (ins : list inbound) : list action :=
  match ins with
  | [] => []
  | Arrive m gone :: rest =>
      let '(a, n', o) := handle_message srv n dev m gone in
      ARecv m :: a ++ (if o is Next then serve srv n' dev rest else [])
  end.

(** Lines 77-96: headers, the gate, then the loop.  [n] is the number of
    backend calls the client has served before this connection. *)
Definition handle_connection (srv : server) (n : nat) (hs : list header)
    (ins : list inbound) : list action :=
  match headers_dict hs with
  | None => [AAbort "MultipleValuesError"]
  | Some h =>
      let dev := header_get h "device-id" in
      match authenticate (srv_policy srv) dev with
      | AuthReject reason => [ASend (error_payload reason PNone); AClose]
      | AuthAccept => serve srv n dev ins
      end
  end.

(** Frames that are all delivered and none of which makes the handler raise. *)
Definition delivered (i : inbound) : Prop :=
  match i with
  | Arrive m gone => gone = false /\ (if normalize m is Raised _ then False else True)
  end.

(** ** The shape of one frame's handling *)

Lemma send_frame_cases peer_left p :
  send_frame peer_left p = ([ASend p], Next) /\ peer_left = false \/
  send_frame peer_left p = ([], PeerClosed) /\ peer_left = true.
Proof. destruct peer_left; [right|left]; done. Qed.

(** A frame whose handling goes on has sent exactly one frame, and was
    delivered; otherwise it has sent nothing. *)
Lemma handle_message_sends srv n dev m gone a n' o :
  handle_message srv n dev m gone = (a, n', o) ->
  (o = Next /\ gone = false /\ exists p, sends a = [p]) \/
  (o <> Next /\ sends a = []).
Proof.
  unfold handle_message.
  destruct (normalize m); [ | | intros; simplify_eq; by right].
  all: match goal with |- context [send_frame ?g ?p] =>
         destruct (send_frame_cases g p) as [[-> ->] | [-> ->]] end;
       intros; simplify_eq/=; [left; eauto | by right].
Qed.

Lemma serve_cons_next srv n dev m gone rest a n' :
  handle_message srv n dev m gone = (a, n', Next) ->
  serve srv n dev (Arrive m gone :: rest) = ARecv m :: a ++ serve srv n' dev rest.
Proof. intros E. simpl. by rewrite E. Qed.

Lemma serve_cons_stop srv n dev m gone rest a n' o :
  handle_message srv n dev m gone = (a, n', o) -> o <> Next ->
  serve srv n dev (Arrive m gone :: rest) = ARecv m :: a.
Proof. intros E Ho. simpl. rewrite E. destruct o; by rewrite ?app_nil_r. Qed.

(** The [request_id] item of a sent frame, if it has one. *)
Definition payload_rid (p : pyval) : option pyval :=
  if p is PDict d then dict_lookup "request_id" d else None.

Lemma payload_rid_error msg rid :
  payload_rid (error_payload msg rid) = if truthy rid then Some rid else None.
Proof. unfold error_payload. by destruct (truthy rid). Qed.

Lemma payload_rid_response dev text rid :
  payload_rid (response_payload dev text rid) = if truthy rid then Some rid else None.
Proof. unfold response_payload. by destruct (truthy rid). Qed.

(** The frame a delivered message is answered with carries the message's
    own [request_id], when it carries one. *)
Lemma handle_message_rid srv n dev m a n' p r :
  handle_message srv n dev m false = (a, n', Next) -> sends a = [p] ->
  payload_rid p = Some r -> r = frame_request_id m /\ truthy r = true.
Proof.
  unfold handle_message. destruct (normalize m) as [msgs rid|reason|e] eqn:En;
    simpl; intros; simplify_eq/=.
  apply normalize_turns_request_id in En as ->.
  destruct (call_openai _ _ _);
    rewrite ?payload_rid_error, ?payload_rid_response in *; by case_match; simplify_eq.
Qed.

Lemma handle_message_delivered srv n dev m gone :
  delivered (Arrive m gone) -> (handle_message srv n dev m gone).2 = Next.
Proof.
  intros [-> Hm]. unfold handle_message.
  destruct (normalize m); [by destruct (call_openai _ _ _) | done | done].
Qed.

(** ** The receive loop *)

(** Where the i-th sent frame comes from: the handling of the i-th frame,
    which was delivered and went on. *)
Lemma serve_send_origin srv n dev ins i p :
  sends (serve srv n dev ins) !! i = Some p ->
  exists m k a n', ins !! i = Some (Arrive m false) /\
    handle_message srv k dev m false = (a, n', Next) /\ sends a = [p].
Proof.
  revert n i. induction ins as [|[m gone] rest IH]; intros n i Hi; [done|].
  destruct (handle_message srv n dev m gone) as [[a n'] o] eqn:E.
  destruct (handle_message_sends _ _ _ _ _ _ _ _ E) as [(-> & -> & q & Hq) | (Ho & Hs)].
  - rewrite (serve_cons_next _ _ _ _ _ _ _ _ E) in Hi. rewrite sends_recv in Hi.
    rewrite sends_app, Hq in Hi.
    destruct i as [|i]; simpl in Hi.
    + simplify_eq. by exists m, n, a, n'.
    + destruct (IH _ _ Hi) as (m' & k & a' & n'' & ? & ? & ?). by exists m', k, a', n''.
  - rewrite (serve_cons_stop _ _ _ _ _ _ _ _ _ E Ho) in Hi. rewrite sends_recv in Hi.
    by rewrite Hs in Hi.
Qed.

(** C7: every reply that carries a [request_id] carries the one of the
    frame it answers (the frame at the same position), and only a truthy
    one. *)
Theorem serve_request_id_echo srv n dev ins i p r :
  sends (serve srv n dev ins) !! i = Some p -> payload_rid p = Some r ->
  exists m, ins !! i = Some (Arrive m false) /\ r = frame_request_id m /\ truthy r = true.
Proof.
  intros Hi Hr.
  destruct (serve_send_origin _ _ _ _ _ _ Hi) as (m & k & a & n' & Hm & E & Ha).
  exists m. split; [done|]. eapply handle_message_rid; eauto.
Qed.

(** C8: replies go out in the order of the frames.  The i-th frame the
    session sends is the one frame that handling the i-th received frame
    sends, and that frame was delivered. *)
Theorem serve_reply_order srv n dev ins i p :
  sends (serve srv n dev ins) !! i = Some p ->
  exists m k, ins !! i = Some (Arrive m false) /\
    sends (handle_message srv k dev m false).1.1 = [p].
Proof.
  intros Hi. destruct (serve_send_origin _ _ _ _ _ _ Hi) as (m & k & a & n' & Hm & E & Ha).
  exists m, k. by rewrite E.
Qed.


(** C11: a protocol error is answered by one error frame without a
    [request_id] and without a backend call, and the loop reads the next
    frame. *)
Theorem serve_invalid_frame srv n dev m reason rest :
  normalize m = Invalid reason ->
  serve srv n dev (Arrive m false :: rest) =
    ARecv m :: ASend (error_payload reason PNone) :: serve srv n dev rest.
Proof. intros Hm. simpl. unfold handle_message. by rewrite Hm. Qed.



(** C18: a frame the decoder raises on (other than [JSONDecodeError]) gets
    no reply: the exception escapes [_handle_message] and the loop, and
    the frames after it are never read. *)
Theorem serve_decoder_raise srv n dev s gone rest e :
  json_loads s = LoadsRaised e ->
  serve srv n dev (Arrive (MText s) gone :: rest) = [ARecv (MText s); AAbort e].
Proof.
  intros Hs. simpl. unfold handle_message, normalize, parse_payload. by rewrite Hs.
Qed.

(** C19: when the peer leaves while its frame is with the backend, the
    call is still made, its result is dropped, and the session ends. *)
Theorem serve_peer_left_in_flight srv n dev m rest msgs rid :
  normalize m = Turns msgs rid ->
  serve srv n dev (Arrive m true :: rest) = [ARecv m; ACall msgs].
Proof. intros Hm. simpl. unfold handle_message. rewrite Hm. by destruct (call_openai _ _ _). Qed.

(** ** The connection *)

(** A connection the gate rejects gets exactly one error frame, with the
    gate's reason, and is closed; no frame is read. *)
Lemma handle_connection_reject srv n hs h ins reason :
  headers_dict hs = Some h ->
  authenticate (srv_policy srv) (header_get h "device-id") = AuthReject reason ->
  handle_connection srv n hs ins = [ASend (error_payload reason PNone); AClose].
Proof. intros Hh Ha. unfold handle_connection. by rewrite Hh, Ha. Qed.

(** C2: when an id is required, a connection whose [device-id] header is
    absent or empty gets the "missing device-id" error frame and is
    closed. *)
Theorem handle_connection_missing_device srv n hs h ins :
  headers_dict hs = Some h ->
  truthy (require_device_id (srv_policy srv)) = true ->
  truthy (dev_pyval (header_get h "device-id")) = false ->
  handle_connection srv n hs ins =
    [ASend (error_payload msg_missing_device PNone); AClose].
Proof. intros Hh Hr Hd. apply handle_connection_reject with h; [done|]. by apply authenticate_missing. Qed.

(** C3: with a non-empty allow-list, a connection whose id is not listed
    gets the "device-id unauthorised" error frame and is closed. *)
Theorem handle_connection_unlisted_device srv n hs h ins d :
  headers_dict hs = Some h -> header_get h "device-id" = Some d -> d <> "" ->
  allowed_devices (srv_policy srv) <> [] -> PStr d ∉ allowed_devices (srv_policy srv) ->
  handle_connection srv n hs ins =
    [ASend (error_payload msg_unauthorized PNone); AClose].
Proof.
  intros Hh Hd ???. apply handle_connection_reject with h; [done|].
  rewrite Hd. by apply authenticate_unlisted.
Qed.

(** C20: a handshake that repeats a header name, in any letter case, makes
    [dict(websocket.request.headers)] raise before the gate: the connection
    is dropped without an error frame. *)
Theorem handle_connection_repeated_header srv n pre mid post k1 v1 k2 v2 ins :
  lower k1 = lower k2 ->
  handle_connection srv n (pre ++ (k1, v1) :: mid ++ (k2, v2) :: post) ins =
    [AAbort "MultipleValuesError"].
Proof. intros Hk. unfold handle_connection. by rewrite headers_dict_repeated. Qed.

(** C1: no backend call before authentication.  Whatever the headers and
    the frames, a connection on which the backend is called has passed the
    gate: its headers form a dict and the gate accepted its device id. *)
Theorem handle_connection_calls_after_auth srv n hs ins msgs :
  ACall msgs ∈ handle_connection srv n hs ins ->
  exists h, headers_dict hs = Some h /\
    authenticate (srv_policy srv) (header_get h "device-id") = AuthAccept.
Proof.
  unfold handle_connection. destruct (headers_dict hs) as [h|]; [|set_solver].
  destruct (authenticate _ _) eqn:Ea; [by eauto | set_solver].
Qed.

End WithEnv.

(** ** Example runs

    A client whose first call times out and whose later calls answer
    "pong", a server that requires a device id and allows "dev-A", and the
    frames of the spec's examples. *)

#[local] Instance flaky_client : ChatClient := fun n _ _ =>
  match n with
  | O => CreateRaised "Request timed out."
  | S _ => Returned (ChatResponse [Choice (Some (ChatMessage (Some "pong")))])
  end.

Definition demo_server : server := Server (Policy (PBool true) [PStr "dev-A"]) (PStr "gpt-4o-mini").

Definition user_turn (t : pyval) : pyval :=
  PList [PDict [("role", PStr "user"); ("content", t)]].

Definition demo_frames : list inbound :=
  [Arrive (MText (sq_json "{'text':'hi','request_id':'42'}")) false;
   Arrive (MText "hello") false;
   Arrive (MBytes [Byte.x00]) false].

(** Nesting deeper than the recursion limit. *)
Definition deep_frame : string := String.string_of_list_ascii (repeat "["%char 1000).

Lemma serve_reply_order_witness :
  exists m k, demo_frames !! 1 = Some (Arrive m false) /\
    sends (handle_message demo_server k (Some "dev-A") m false).1.1 =
      [response_payload (Some "dev-A") "pong" PNone].
Proof. apply (serve_reply_order demo_server 0 (Some "dev-A") demo_frames 1). vm_compute. reflexivity. Defined.

Lemma serve_request_id_echo_witness :
  exists m, demo_frames !! 0 = Some (Arrive m false) /\
    PStr "42" = frame_request_id m /\ truthy (PStr "42") = true.
Proof.
  apply (serve_request_id_echo demo_server 0 (Some "dev-A") demo_frames 0
    (error_payload (backend_error_text "Request timed out.") (PStr "42"))); vm_compute; reflexivity.
Defined.


Lemma serve_invalid_frame_witness :
  serve demo_server 0 (Some "dev-A") (Arrive (MBytes [Byte.x01]) false :: demo_frames) =
    ARecv (MBytes [Byte.x01]) :: ASend (error_payload msg_binary PNone) ::
    serve demo_server 0 (Some "dev-A") demo_frames.
Proof. apply serve_invalid_frame. reflexivity. Defined.



Lemma serve_decoder_raise_witness :
  serve demo_server 0 (Some "dev-A") (Arrive (MText deep_frame) false :: demo_frames) =
    [ARecv (MText deep_frame); AAbort "RecursionError"].
Proof. apply serve_decoder_raise. vm_compute. reflexivity. Defined.

Lemma serve_peer_left_in_flight_witness :
  serve demo_server 1 (Some "dev-A") (Arrive (MText "hello") true :: demo_frames) =
    [ARecv (MText "hello"); ACall (user_turn (PStr "hello"))].
Proof. apply (serve_peer_left_in_flight _ _ _ _ _ _ PNone). vm_compute. reflexivity. Defined.

Lemma handle_connection_calls_after_auth_witness :
  exists h, headers_dict [("Device-Id", "dev-A")] = Some h /\
    authenticate (srv_policy demo_server) (header_get h "device-id") = AuthAccept.
Proof.
  apply (handle_connection_calls_after_auth demo_server 0 _ demo_frames (user_turn (PStr "hi"))).
  apply list_elem_of_In. vm_compute. right. left. reflexivity.
Defined.

Lemma handle_connection_missing_device_witness :
  handle_connection demo_server 0 [("Host", "gw.local"); ("Device-Id", "")] demo_frames =
    [ASend (error_payload msg_missing_device PNone); AClose].
Proof.
  apply (handle_connection_missing_device _ _ _ [("host", "gw.local"); ("device-id", "")]);
    vm_compute; reflexivity.
Defined.

Lemma handle_connection_unlisted_device_witness :
  handle_connection (Server (Policy (PBool true) [PStr "A"]) (PStr "gpt-4o-mini")) 0
    [("Device-Id", "B")] demo_frames =
    [ASend (error_payload msg_unauthorized PNone); AClose].
Proof.
  apply (handle_connection_unlisted_device _ _ _ [("device-id", "B")] _ "B");
    [vm_compute; reflexivity .. | discriminate | discriminate | ].
  intros Hin. apply list_elem_of_singleton in Hin. discriminate.
Defined.

Lemma handle_connection_repeated_header_witness :
  handle_connection demo_server 0 ([] ++ ("Device-Id", "dev-A") :: [] ++ ("device-id", "dev-A") :: [])
    demo_frames = [AAbort "MultipleValuesError"].
Proof. apply handle_connection_repeated_header. reflexivity. Defined.

End Session.
