(* ===== verification/StateMachine.v ===== *)
(** * The spec's session state machine, and the code's traces as its runs

    Spec 4.5: a session goes CONNECTING, AUTHENTICATING, then OPEN or (after
    one error frame) CLOSED; in OPEN it reads a frame, answers it (an error
    frame, or a backend call and its reply) before reading the next, and
    ends in CLOSED when either side closes.  Here the machine is a step
    relation over a phase and a flag recording a successful gate, with
    silent steps for the upgrade, the (frame-less) acceptance and the
    peer's close.  Its invariants are proved by rule induction, and every
    trace of [Session.handle_connection] is shown to be a complete run. *)

From S2P Require Import Spec2Rocq Json JsonParser Auth Normalizer Backend Session.
Import JsonParser Auth Backend Normalizer Session.

Module StateMachine.

Inductive phase :=
| Connecting | Authenticating | Rejecting | Open | Handling | AwaitingBackend | Closed.

Record sm_state := SM { phase_of : phase; authed : bool }.

Definition reply_frame (p : pyval) : Prop :=
  (exists r rid, p = error_payload r rid) \/
  (exists dev t rid, p = response_payload dev t rid).

(** One transition; [None] is a silent step. *)
Inductive sm_step : sm_state -> option action -> sm_state -> Prop :=
| st_upgrade : sm_step (SM Connecting false) None (SM Authenticating false)
| st_accept : sm_step (SM Authenticating false) None (SM Open true)
| st_reject r :
    sm_step (SM Authenticating false) (Some (ASend (error_payload r PNone))) (SM Rejecting false)
| st_close_rejected : sm_step (SM Rejecting false) (Some AClose) (SM Closed false)
| st_recv a m : sm_step (SM Open a) (Some (ARecv m)) (SM Handling a)
| st_invalid a r : sm_step (SM Handling a) (Some (ASend (error_payload r PNone))) (SM Open a)
| st_call a msgs : sm_step (SM Handling a) (Some (ACall msgs)) (SM AwaitingBackend a)
| st_reply a p : reply_frame p -> sm_step (SM AwaitingBackend a) (Some (ASend p)) (SM Open a)
| st_abort ph a e :
    ph = Authenticating \/ ph = Handling -> sm_step (SM ph a) (Some (AAbort e)) (SM Closed a)
| st_peer_close ph a :
    ph = Open \/ ph = Handling \/ ph = AwaitingBackend -> sm_step (SM ph a) None (SM Closed a).

(** Runs: the visible actions of a sequence of steps. *)
Inductive runs : sm_state -> list action -> sm_state -> Prop :=
| runs_nil s : runs s [] s
| runs_tau s s' tr s'' : sm_step s None s' -> runs s' tr s'' -> runs s tr s''
| runs_vis s a s' tr s'' : sm_step s (Some a) s' -> runs s' tr s'' -> runs s (a :: tr) s''.

Definition sm_init : sm_state := SM Connecting false.

#[export] Hint Constructors sm_step runs : gateway.

(** The phases of an open session, and how many replies each owes. *)
Definition in_session (ph : phase) : Prop := ph = Open \/ ph = Handling \/ ph = AwaitingBackend.

Definition owed (ph : phase) : nat :=
  match ph with Handling | AwaitingBackend => 1 | _ => 0 end.

Definition recvs (tr : list action) : nat :=
  length (omap (fun a => if a is ARecv m then Some m else None) tr).

(** The invariant of the flag: set exactly in the phases of an open session. *)
Definition auth_inv (s : sm_state) : Prop :=
  match phase_of s with
  | Open | Handling | AwaitingBackend => authed s = true
  | Connecting | Authenticating | Rejecting => authed s = false
  | Closed => True
  end.

Lemma runs_app s tr1 s1 tr2 s2 :
  runs s tr1 s1 -> runs s1 tr2 s2 -> runs s (tr1 ++ tr2) s2.
Proof. induction 1; simpl; eauto with gateway. Qed.

Lemma sm_step_auth_inv s l s' : sm_step s l s' -> auth_inv s -> auth_inv s'.
Proof.
  unfold auth_inv. destruct 1; simpl; try done; destruct_or!; by subst.
Qed.

Lemma runs_auth_inv s tr s' : runs s tr s' -> auth_inv s -> auth_inv s'.
Proof. induction 1; eauto using sm_step_auth_inv. Qed.

Lemma runs_split_at s tr1 a tr2 s' :
  runs s (tr1 ++ a :: tr2) s' ->
  exists s1 s2, runs s tr1 s1 /\ sm_step s1 (Some a) s2 /\ runs s2 tr2 s'.
Proof.
  intros Hr. remember (tr1 ++ a :: tr2) as tr eqn:E. revert tr1 E.
  induction Hr as [s|s s0 tr s'' Hs Hr IH|s b s0 tr s'' Hs Hr IH]; intros tr1 E.
  - by destruct tr1.
  - destruct (IH _ E) as (s1 & s2 & ? & ? & ?).
    exists s1, s2. split_and!; [eapply runs_tau | ..]; eauto.
  - destruct tr1 as [|b' tr1]; simplify_eq/=.
    + exists s, s0. split_and!; [constructor | done | done].
    + destruct (IH _ eq_refl) as (s1 & s2 & ? & ? & ?).
      exists s1, s2. split_and!; [eapply runs_vis | ..]; eauto.
Qed.


Lemma sm_step_owed s l s' :
  sm_step s l s' -> in_session (phase_of s) -> in_session (phase_of s') ->
  recvs (option_list l) + owed (phase_of s) = length (sends (option_list l)) + owed (phase_of s').
Proof.
  unfold in_session. destruct 1; simpl; naive_solver.
Qed.

Lemma runs_from_closed a tr s' : runs (SM Closed a) tr s' -> s' = SM Closed a /\ tr = [].
Proof. inversion 1 as [|? ? ? ? Hs|? ? ? ? ? Hs]; subst; [done | inversion Hs; naive_solver..]. Qed.

Lemma sm_step_session s l s' :
  sm_step s l s' -> in_session (phase_of s) -> phase_of s' = Closed \/ in_session (phase_of s').
Proof. unfold in_session. destruct 1; simpl; naive_solver. Qed.

Lemma recvs_cons a tr : recvs (a :: tr) = recvs [a] + recvs tr.
Proof. unfold recvs. by destruct a. Qed.


(** ** The code's traces are runs of the machine *)

Lemma runs_peer_close ph a :
  in_session ph -> runs (SM ph a) [] (SM Closed a).
Proof. intros Hph. eapply runs_tau; [by constructor | constructor]. Qed.

Lemma reply_frame_error r rid : reply_frame (error_payload r rid).
Proof. left. eauto. Qed.

Lemma reply_frame_response dev t rid : reply_frame (response_payload dev t rid).
Proof. right. eauto. Qed.

#[export] Hint Resolve reply_frame_error reply_frame_response : gateway.

Section WithEnv.
Context `{JsonLoads} `{ChatClient}.

(** The handling of one frame, from the state after reading it: back to
    OPEN when the loop goes on, to CLOSED otherwise. *)
Lemma handle_message_runs srv n dev m gone a n' o :
  handle_message srv n dev m gone = (a, n', o) ->
  exists s', runs (SM Handling true) a s' /\
    (o = Next -> s' = SM Open true) /\ (o <> Next -> phase_of s' = Closed).
Proof.
  unfold handle_message. destruct (normalize m) as [msgs rid|r|e].
  - destruct (call_openai n (srv_model srv) msgs), gone; simpl; intros; simplify_eq.
    all: eexists; split; [eapply runs_vis; [constructor|] | ].
    all: first [ apply runs_peer_close; unfold in_session; naive_solver
               | eapply runs_vis; [constructor; eauto with gateway | constructor] | idtac ].
    all: naive_solver.
  - destruct gone; simpl; intros; simplify_eq.
    + exists (SM Closed true). split; [apply runs_peer_close; unfold in_session|]; naive_solver.
    + exists (SM Open true). split; [eapply runs_vis; constructor|]; naive_solver.
  - intros; simplify_eq. exists (SM Closed true).
    split; [eapply runs_vis; [constructor; naive_solver | constructor] |]; naive_solver.
Qed.

Lemma serve_runs srv n dev ins :
  exists s', runs (SM Open true) (serve srv n dev ins) s' /\ phase_of s' = Closed.
Proof.
  revert n. induction ins as [|[m gone] rest IH]; intros n; simpl.
  - exists (SM Closed true). split; [apply runs_peer_close; unfold in_session|]; naive_solver.
  - destruct (handle_message srv n dev m gone) as [[a n'] o] eqn:E.
    destruct (handle_message_runs _ _ _ _ _ _ _ _ E) as (s1 & Hr & Hnext & Hstop).
    destruct o.
    + destruct (IH n') as (s2 & Hr2 & Hc). exists s2. split; [|done].
      eapply runs_vis; [constructor|]. eapply runs_app; [exact Hr|]. by rewrite Hnext.
    + exists s1. rewrite app_nil_r. split; [eapply runs_vis; [constructor | done] | by apply Hstop].
    + exists s1. rewrite app_nil_r. split; [eapply runs_vis; [constructor | done] | by apply Hstop].
Qed.

(** C5: the code refines the spec's session machine.  Whatever the
    headers, the frames, the decoder and the backend, the trace of
    [handle_connection] is a run of the machine from CONNECTING that ends
    in CLOSED. *)
Theorem handle_connection_refines_sm srv n hs ins :
  exists s, runs sm_init (handle_connection srv n hs ins) s /\ phase_of s = Closed.
Proof.
  unfold handle_connection. destruct (headers_dict hs) as [h|].
  - destruct (authenticate _ _) as [|r].
    + destruct (serve_runs srv n (header_get h "device-id") ins) as (s & Hr & Hc).
      exists s. split; [|done]. eapply runs_tau; [constructor|]. eapply runs_tau; [constructor | done].
    + exists (SM Closed false). split; [|done].
      eapply runs_tau; [constructor|]. eapply runs_vis; [constructor|].
      eapply runs_vis; [constructor | constructor].
  - exists (SM Closed false). split; [|done].
    eapply runs_tau; [constructor|]. eapply runs_vis; [constructor; by left | constructor].
Qed.

End WithEnv.



End StateMachine.
