(* ===== verification/Listener.v ===== *)
(** * The listener's answer to a plain HTTP request: [_http_response]

    Lines 72-75, the [process_request] hook of [websockets.serve]: when
    the request's [Connection] header, lower-cased, is exactly [upgrade]
    the hook returns [None] and the WebSocket handshake goes on; otherwise
    it answers [200] with the body [Gateway is running] and a newline.
    [headers.get] on the library's multi-map raises [MultipleValuesError]
    (not a [KeyError], so [get] does not catch it) when the header occurs
    more than once. *)

From S2P Require Import Spec2Rocq Json Auth.
Import Auth.

Module Listener.

Inductive probe_answer :=
| GoUpgrade                          (** [return None] *)
| Respond (status : Z) (body : string)
| ProbeRaised (exn : string).

Definition running_body : string :=
  "Gateway is running" +:+ String (ascii_of_nat 10) EmptyString.

(** [headers.get(name, default)] on the request's multi-map. *)
Definition headers_get_one (hs : list header) (name dflt : string) : option string :=
  match filter (fun h : header => lower h.1 = name) hs with
  | [] => Some dflt
  | [(_, v)] => Some v
  | _ => None
  end.

Definition http_response (hs : list header) : probe_answer :=
  match headers_get_one hs "connection" "" with
  | None => ProbeRaised "MultipleValuesError"
  | Some v => if bool_decide (lower v = "upgrade") then GoUpgrade else Respond 200 running_body
  end.

(** C22: the handshake goes on exactly when the request has a single
    [Connection] header whose value, lower-cased, is [upgrade]. *)
Theorem http_response_upgrade_iff hs :
  http_response hs = GoUpgrade <->
  exists k v, filter (fun h : header => lower h.1 = "connection") hs = [(k, v)] /\
    lower v = "upgrade".
Proof.
  unfold http_response, headers_get_one.
  destruct (filter _ hs) as [|[k v] [|? ?]]; simpl.
  - split; [done | by intros (? & ? & ? & _)].
  - case_bool_decide; split; [eauto | done | done | naive_solver].
  - split; [done | by intros (? & ? & ? & _)].
Qed.

(** C23: a request whose single [Connection] header is a token list, such
    as the [keep-alive, Upgrade] that Firefox sends with a WebSocket
    handshake, is answered by the health-check page instead of being
    upgraded. *)
Theorem http_response_token_list k v :
  lower k = "connection" -> lower v <> "upgrade" ->
  http_response [(k, v)] = Respond 200 running_body.
Proof.
  intros Hk Hv. unfold http_response, headers_get_one.
  rewrite filter_cons_True, filter_nil by done. by rewrite bool_decide_false.
Qed.

Lemma http_response_token_list_witness :
  http_response [("Connection", "keep-alive, Upgrade")] = Respond 200 running_body.
Proof. apply http_response_token_list; [reflexivity | discriminate]. Defined.

End Listener.
