(* ===== verification/LogFilter.v ===== *)
(** * The handshake-noise log filter

    Lines 14-36: [SuppressInvalidHandshakeFilter.filter] drops a record
    whose message contains one of four phrases the WebSocket library logs
    when a client speaks something else than a WebSocket handshake (an
    HTTPS request on the plain port, a port scanner).  At import time,
    [_setup_websockets_logger] creates one filter and adds it to the three
    loggers [websockets], [websockets.server] and [websockets.client].
    The loggers are the process-wide registry of [logging.getLogger]: a
    map from a name to the logger's filters, here the filter instances by
    number; [addFilter] adds an instance that is not there yet. *)

From S2P Require Import Spec2Rocq.

Module LogFilter.

Definition suppress_keywords : list string :=
  ["opening handshake failed"; "did not receive a valid HTTP request";
   "connection closed while reading HTTP request"; "line without CRLF"].

(** [filter(record)]: [True] keeps the record. *)
Definition filter_record (msg : string) : bool :=
  negb (existsb (fun k => containsb k msg) suppress_keywords).

Record registry := Registry {
  loggers : gmap string (list nat);   (** a logger's filters *)
  next_instance : nat                 (** the number of the next filter created *)
}.

Definition logger_filters (r : registry) (name : string) : list nat :=
  default [] (loggers r !! name).

(** [Filterer.addFilter]: [if not (filter in self.filters): append]. *)
Definition add_filter (f : nat) (fs : list nat) : list nat :=
  if decide (f ∈ fs) then fs else fs ++ [f].

Definition websockets_loggers : list string :=
  ["websockets"; "websockets.server"; "websockets.client"].

Definition setup_websockets_logger (r : registry) : registry :=
  let f := next_instance r in
  Registry
    (foldl (fun m name => <[name := add_filter f (default [] (m !! name))]> m)
       (loggers r) websockets_loggers)
    (S f).

(** A record logged on [name] is emitted when every filter of the logger
    keeps it; all the instances are [SuppressInvalidHandshakeFilter]s. *)
Definition logger_emits (r : registry) (name msg : string) : bool :=
  forallb (fun _ => filter_record msg) (logger_filters r name).

Lemma add_filter_idem f fs : add_filter f (add_filter f fs) = add_filter f fs.
Proof.
  unfold add_filter. destruct (decide (f ∈ fs)); [by rewrite decide_True|].
  rewrite decide_True; [done | set_solver].
Qed.

Lemma add_filter_elem f fs : f ∈ add_filter f fs.
Proof. unfold add_filter. case_decide; set_solver. Qed.

Lemma foldl_add_filter_lookup f ns (m : gmap string (list nat)) name :
  foldl (fun m name => <[name := add_filter f (default [] (m !! name))]> m) m ns !! name =
  if decide (name ∈ ns) then Some (add_filter f (default [] (m !! name))) else m !! name.
Proof.
  revert m. induction ns as [|n ns IH]; intros m; simpl; [done|].
  rewrite IH. destruct (decide (n = name)) as [->|Hne].
  - rewrite !lookup_insert_eq, (decide_True (P := name ∈ name :: ns)) by apply list_elem_of_here.
    simpl. case_decide; [by rewrite add_filter_idem | done].
  - rewrite !lookup_insert_ne by done.
    destruct (decide (name ∈ ns)) as [Hin|Hnin].
    + by rewrite decide_True by (by apply list_elem_of_further).
    + rewrite decide_False; [done|]. rewrite elem_of_cons. naive_solver.
Qed.

(** C24: the filter drops a record exactly when its message contains one
    of the four handshake-failure phrases. *)
Theorem filter_record_false_iff msg :
  filter_record msg = false <->
  exists k, k ∈ suppress_keywords /\ exists a b, msg = a +:+ k +:+ b.
Proof.
  unfold filter_record. rewrite negb_false_iff, existsb_exists. split.
  - intros (k & Hk & Hc). apply containsb_true_iff in Hc. exists k. by rewrite list_elem_of_In.
  - intros (k & Hk & Hc). exists k. rewrite <-list_elem_of_In, containsb_true_iff. done.
Qed.

(** C25: after the setup, a record with a handshake-failure message logged
    on any of the three [websockets] loggers is dropped, whatever filters
    the registry held before. *)
Theorem setup_suppresses_handshake_noise r name msg :
  name ∈ websockets_loggers -> filter_record msg = false ->
  logger_emits (setup_websockets_logger r) name msg = false.
Proof.
  intros Hn Hf. unfold logger_emits, logger_filters, setup_websockets_logger.
  cbn [loggers next_instance]. rewrite foldl_add_filter_lookup, decide_True by done. simpl.
  pose proof (add_filter_elem (next_instance r) (default [] (loggers r !! name))) as Hin.
  destruct (add_filter _ _) as [|x l]; [set_solver | by simpl; rewrite Hf].
Qed.

(** C26: the setup touches no other logger. *)
Theorem setup_other_loggers r name :
  name ∉ websockets_loggers ->
  loggers (setup_websockets_logger r) !! name = loggers r !! name.
Proof.
  intros Hn. unfold setup_websockets_logger. cbn [loggers].
  by rewrite foldl_add_filter_lookup, decide_False.
Qed.

Lemma setup_suppresses_handshake_noise_witness :
  logger_emits (setup_websockets_logger (Registry ∅ 0)) "websockets.server"
    "opening handshake failed" = false.
Proof. apply setup_suppresses_handshake_noise; [set_solver | reflexivity]. Defined.

Lemma setup_other_loggers_witness :
  loggers (setup_websockets_logger (Registry {[ "app" := [7] ]} 0)) !! "app" = Some [7].
Proof. rewrite setup_other_loggers; [apply lookup_singleton_eq | set_solver]. Defined.

End LogFilter.
