(* ===== verification/Config.v ===== *)
(** * Reading the configuration: [GatewayWebSocketServer.__init__] and [start]

    Lines 40-60 and 62-65.  The configuration is the dict the loader hands
    over (YAML values, which are Python values of [Json.pyval]).  The code
    reads it with [get] and defaults, converts the timeout and the port
    with [int], the allow-list with [set], and tests the API key with
    [not api_key or "你" in api_key].  Any of these may raise: [get] on a
    value that is not a dict ([AttributeError]), [int] on a bad value
    ([ValueError], [TypeError], [OverflowError]), [set] on a non-iterable
    or on unhashable members ([TypeError]); and [openai.OpenAI] raises
    [OpenAIError] when the key is [None] and the [OPENAI_API_KEY]
    environment variable is not set.  Logging the warning has no effect on
    the state and is left out; whether it is logged is kept. *)

From S2P Require Import Spec2Rocq Json Auth.
Import Auth.

Module Config.

Local Open Scope gw_scope.

Inductive py_error := AttributeError | TypeError | ValueError | OverflowError | OpenAIError.

(** [v.get(k, default)], where [v] must be a dict. *)
Definition get_in (v : pyval) (k : string) (dflt : pyval) : py_error + pyval :=
  match v with PDict d => inr (pyget_default d k dflt) | _ => inl AttributeError end.

(** [int(s)] on a string: surrounding whitespace, an optional sign, and
    decimal digits with single underscores between them. *)
Definition is_py_space (c : ascii) : bool :=
  match nat_of_ascii c with 32 | 9 | 10 | 11 | 12 | 13 => true | _ => false end.

Fixpoint drop_space (cs : list ascii) : list ascii :=
  match cs with c :: cs' => if is_py_space c then drop_space cs' else cs | [] => [] end.

Definition digit_value (c : ascii) : option Z :=
  let n := nat_of_ascii c in
  if (48 <=? n)%nat && (n <=? 57)%nat then Some (Z.of_nat n - 48)%Z else None.

(** Digits and underscores, [acc] the value so far, [us] when the last
    character was an underscore. *)
Fixpoint parse_digits (acc : Z) (us : bool) (cs : list ascii) : option Z :=
  match cs with
  | [] => if us then None else Some acc
  | c :: cs' =>
      if bool_decide (c = "_"%char) then (if us then None else parse_digits acc true cs')
      else match digit_value c with
           | Some d => parse_digits (acc * 10 + d)%Z false cs'
           | None => None
           end
  end.

Definition parse_int_literal (s : string) : option Z :=
  let cs := rev (drop_space (rev (drop_space (String.list_ascii_of_string s)))) in
  let '(neg, body) :=
    match cs with
    | "-"%char :: r => (true, r) | "+"%char :: r => (false, r) | _ => (false, cs)
    end in
  match body with
  | c :: _ =>
      match digit_value c with
      | Some _ => option_map (fun z => if neg then (- z)%Z else z) (parse_digits 0 false body)
      | None => None
      end
  | [] => None
  end.

(** [int(v)]; a float is truncated toward zero. *)
Definition py_int (v : pyval) : py_error + Z :=
  match v with
  | PInt z => inr z
  | PBool b => inr (if b then 1 else 0)%Z
  | PFloat (FDec m e) =>
      inr (if (0 <=? e)%Z then (m * 10 ^ e)%Z else Z.quot m (10 ^ (- e)))
  | PFloat (FInf _) => inl OverflowError
  | PFloat FNaN => inl ValueError
  | PStr s => match parse_int_literal s with Some z => inr z | None => inl ValueError end
  | _ => inl TypeError
  end.

Definition hashable (v : pyval) : bool :=
  match v with PList _ | PDict _ => false | _ => true end.

(** [set(v)], as the list of its members (a string gives its characters,
    a dict its keys). *)
Definition py_set (v : pyval) : py_error + list pyval :=
  match v with
  | PList l => if forallb hashable l then inr l else inl TypeError
  | PDict d => inr (map (fun kv => PStr kv.1) d)
  | PStr s => inr (map (fun c => PStr (String c EmptyString)) (String.list_ascii_of_string s))
  | _ => inl TypeError
  end.

(** [needle in hay]. *)
Definition py_contains (needle : string) (hay : pyval) : py_error + bool :=
  match hay with
  | PStr s => inr (containsb needle s)
  | PList l => inr (bool_decide (PStr needle ∈ l))
  | PDict d => inr (bool_decide (needle ∈ d.*1))
  | _ => inl TypeError
  end.

(** Line 53: [not api_key or "你" in api_key]. *)
Definition key_warning (api_key : pyval) : py_error + bool :=
  if truthy api_key then py_contains "你" api_key else inr true.

Record gateway_settings := GatewaySettings {
  require_device_id_cfg : pyval;
  allowed_devices_cfg : list pyval;
  model_cfg : pyval;
  timeout_cfg : Z;
  base_url_cfg : pyval;
  api_key_cfg : pyval;
  warns_missing_key : bool
}.

(** Lines 40-60.  [env_api_key] is the [OPENAI_API_KEY] variable the
    client falls back on when the key is [None]. *)
Definition init (config : pyval) (env_api_key : option string)
    : py_error + gateway_settings :=
  gateway <-? get_in config "gateway" (PDict []) ;;
  openai <-? get_in gateway "openai" (PDict []) ;;
  require <-? get_in gateway "require_device_id" (PBool true) ;;
  allowed_v <-? get_in gateway "allowed_devices" (PList []) ;;
  allowed <-? py_set allowed_v ;;
  model <-? get_in openai "model" (PStr "gpt-4o-mini") ;;
  timeout_v <-? get_in openai "timeout" (PInt 60) ;;
  timeout <-? py_int timeout_v ;;
  base_url <-? get_in openai "base_url" (PStr "https://api.openai.com/v1") ;;
  api_key <-? get_in openai "api_key" (PStr "") ;;
  warn <-? key_warning api_key ;;
  match api_key, env_api_key with
  | PNone, None => inl OpenAIError
  | _, _ => inr (GatewaySettings require allowed model timeout base_url api_key warn)
  end.

(** The gate's policy the constructor sets up. *)
Definition policy_of_settings (g : gateway_settings) : policy :=
  Policy (require_device_id_cfg g) (allowed_devices_cfg g).

(** Lines 63-65 of [start]: the address the server binds. *)
Definition listen_address (config : pyval) : py_error + (pyval * Z) :=
  server <-? get_in config "server" (PDict []) ;;
  host <-? get_in server "ip" (PStr "0.0.0.0") ;;
  port_v <-? get_in server "port" (PInt 8000) ;;
  port <-? py_int port_v ;;
  inr (host, port).



(** C29: a constructed gateway whose key is falsy has warned about it, and
    one whose key is [None] found the key in the environment. *)
Theorem init_api_key config env g :
  init config env = inr g ->
  (truthy (api_key_cfg g) = false -> warns_missing_key g = true) /\
  (api_key_cfg g = PNone -> env <> None).
Proof.
  unfold init. intros H. sum_case; try discriminate.
  unfold key_warning in *.
  repeat (case_match; simplify_eq/=); naive_solver.
Qed.



Lemma init_api_key_witness :
  (truthy (PStr "你的key") = false -> warns_missing_key
     (GatewaySettings (PBool true) [] (PStr "gpt-4o-mini") 60
        (PStr "https://api.openai.com/v1") (PStr "你的key") true) = true) /\
  (PStr "你的key" = PNone -> Some "sk" <> None).
Proof.
  apply (init_api_key
    (PDict [("gateway", PDict [("openai", PDict [("api_key", PStr "你的key")])])]) (Some "sk")
    (GatewaySettings (PBool true) [] (PStr "gpt-4o-mini") 60
       (PStr "https://api.openai.com/v1") (PStr "你的key") true)).
  vm_compute. reflexivity.
Defined.


End Config.
