(* ===== verification/Settings.v ===== *)
(** * The configuration-file check: [src/config/settings.py]

    [check_config_file] (lines 9-21) keeps a module-global flag,
    [config_file_valid] (line 6, initially [False]).  When the flag is set
    the call returns at once; otherwise it builds the path
    [get_project_dir() + "data/." + "config.yaml"], raises
    [FileNotFoundError] when the file does not exist, and sets the flag.
    The module state is the flag; the project directory (from the loader,
    which is not under [src/]) and the file system of each call are
    parameters. *)

From S2P Require Import Spec2Rocq.

Module Settings.

Definition default_config_file : string := "config.yaml".

Record settings_state := SettingsState { config_file_valid : bool }.

Definition initial_state : settings_state := SettingsState false.

Inductive check_result := CheckOk | FileNotFound (msg : string).

Definition msg_not_found : string :=
  "找不到data/.config.yaml文件，请按教程确认该配置文件是否存在".

Definition custom_config_file (project_dir : string) : string :=
  project_dir +:+ "data/." +:+ default_config_file.

Definition check_config_file (project_dir : string) (path_exists : string -> bool)
    (st : settings_state) : check_result * settings_state :=
  if config_file_valid st then (CheckOk, st)
  else if path_exists (custom_config_file project_dir) then (CheckOk, SettingsState true)
  else (FileNotFound msg_not_found, st).

(** Successive calls, each one seeing the file system of its time. *)
Fixpoint check_calls (project_dir : string) (fss : list (string -> bool))
    (st : settings_state) : list check_result * settings_state :=
  match fss with
  | [] => ([], st)
  | fs :: fss' =>
      let '(r, st') := check_config_file project_dir fs st in
      let '(rs, st'') := check_calls project_dir fss' st' in
      (r :: rs, st'')
  end.

Lemma check_calls_valid d fss :
  check_calls d fss (SettingsState true) = (repeat CheckOk (length fss), SettingsState true).
Proof. induction fss as [|fs fss IH]; simpl; [done | by rewrite IH]. Qed.

(** C31: the check is cached: after a call that succeeded, every later
    call succeeds without looking at the file system, even when the file
    has been removed since. *)
Theorem check_config_file_cached d fs st fss :
  (check_config_file d fs st).1 = CheckOk ->
  (check_calls d fss (check_config_file d fs st).2).1 = repeat CheckOk (length fss).
Proof.
  unfold check_config_file. destruct st as [[|]]; simpl.
  - by rewrite check_calls_valid.
  - destruct (fs _); simpl; [by rewrite check_calls_valid | done].
Qed.

(** C32: a failed check raises [FileNotFoundError] and leaves the flag
    clear, so the next call looks at the file system again. *)
Theorem check_config_file_missing d fs st :
  config_file_valid st = false -> fs (custom_config_file d) = false ->
  check_config_file d fs st = (FileNotFound msg_not_found, st).
Proof. intros Hv Hf. unfold check_config_file. by rewrite Hv, Hf. Qed.

Definition only_file (p : string) : string -> bool := fun q => bool_decide (q = p).

Lemma check_config_file_cached_witness :
  (check_calls "/srv/xiaozhi/" [fun _ => false; fun _ => false]
     (check_config_file "/srv/xiaozhi/" (only_file "/srv/xiaozhi/data/.config.yaml")
        initial_state).2).1 = [CheckOk; CheckOk].
Proof. apply (check_config_file_cached _ _ _ [_; _]). reflexivity. Defined.

Lemma check_config_file_missing_witness :
  check_config_file "/srv/xiaozhi/" (fun _ => false) initial_state =
    (FileNotFound msg_not_found, initial_state).
Proof. apply check_config_file_missing; reflexivity. Defined.

End Settings.
