(* ===== verification/CacheConfig.v ===== *)
(** * Cache presets: [src/core/utils/cache/config.py]

    [CacheConfig] is a dataclass of four fields with defaults (lines
    16-23): strategy TTL, a TTL of 300 seconds, at most 1000 entries, and a
    cleanup every 60 seconds.  [CacheConfig.for_type] (lines 25-33) builds
    a dict of presets, one per [CacheType] (lines 11-13: only [CONFIG]),
    and returns the preset of the given type, or a default instance.  The
    [CacheStrategy] enum lives in [strategies.py], which is not under
    [src/]: its two members used here are taken from the spec. *)

From S2P Require Import Spec2Rocq.

Module CacheConfig.

Inductive CacheStrategy := TTL | FIXED_SIZE.

Inductive CacheType : Type := CONFIG.

#[export] Instance CacheType_eq_dec : EqDecision CacheType.
Proof. solve_decision. Defined.

Record cache_config := CacheConfigR {
  strategy : CacheStrategy;
  ttl : option Z;
  max_size : option Z;
  cleanup_interval : Z
}.

(** [cls()]: the field defaults. *)
Definition default_config : cache_config := CacheConfigR TTL (Some 300%Z) (Some 1000%Z) 60%Z.

(** [dict.get] on the preset table, keyed by the enum member. *)
Fixpoint preset_get (t : CacheType) (l : list (CacheType * cache_config)) : option cache_config :=
  match l with
  | [] => None
  | (k, c) :: l' => if decide (k = t) then Some c else preset_get t l'
  end.

(** Lines 28-33: the preset table and [configs.get(cache_type, cls())]. *)
Definition for_type (t : CacheType) : cache_config :=
  let configs := [(CONFIG, CacheConfigR FIXED_SIZE None (Some 20%Z) 60%Z)] in
  default default_config (preset_get t configs).

(** A usable configuration: a TTL cache has a positive TTL, a fixed-size
    cache a positive bound, and the cleanup runs at a positive interval. *)
Definition cache_config_wf (c : cache_config) : Prop :=
  match strategy c with
  | TTL => exists t, ttl c = Some t /\ (0 < t)%Z
  | FIXED_SIZE => exists n, max_size c = Some n /\ (0 < n)%Z
  end /\ (0 < cleanup_interval c)%Z.


End CacheConfig.
